(** * Sensirion SDP8xx analog conversion routines

    A shallow embedding of [src/main.c] and [src/utilities-config.h].

    - C [double]s are IEEE-754 binary64 numbers, embedded as Rocq's primitive
      [float]s, whose operations are specified by [FloatAxioms] against the
      executable reference [SpecFloat].
    - [calculateSensorOutput] takes the output array and returns it updated,
      next to the scalar it returns in C.
    - [main] is a function of a [World], the answers of the routines it
      calls, to its outcome and its final local variables, among them the
      trace of the calls it made. Each block of [main] is one definition.
    - Routines and constants that main.c uses and that are declared elsewhere
      ([pow], [CLOCKS_PER_SEC], [PRIu64], the error code) are parameters. *)

From Stdlib Require Import ZArith QArith Qabs Qpower Floats Ascii String.
From stdpp Require Import base option list strings.

Open Scope float_scope.

(** ** utilities-config.h *)

Definition kSensorCalibrationConstantSDP8x6Linear500Pa1 : float := 750.
Definition kSensorCalibrationConstantSDP8x6Linear500Pa2 : float := 150.

Definition kSensorCalibrationConstantSDP8x6Linear125Pa1 : float := 190.
Definition kSensorCalibrationConstantSDP8x6Linear125Pa2 : float := 38.

Definition kSensorCalibrationConstantSDP8x6Sqrt500Pa1 : float := 0.5.
#[warnings="-inexact-float"]
Definition kSensorCalibrationConstantSDP8x6Sqrt500Pa2 : float := 0.4.
Definition kSensorCalibrationConstantSDP8x6Sqrt500Pa3 : float := 1.25.
Definition kSensorCalibrationConstantSDP8x6Sqrt500Pa4 : float := 525.

Definition kSensorCalibrationConstantSDP8x6Sqrt125Pa1 : float := 0.5.
#[warnings="-inexact-float"]
Definition kSensorCalibrationConstantSDP8x6Sqrt125Pa2 : float := 0.4.
Definition kSensorCalibrationConstantSDP8x6Sqrt125Pa3 : float := 1.25.
Definition kSensorCalibrationConstantSDP8x6Sqrt125Pa4 : float := 133.

(** [InputDistributionIndex] *)
Definition kInputDistributionIndexAout : nat := 0.
Definition kInputDistributionIndexVdd : nat := 1.
Definition kInputDistributionIndexMax : nat := 2.

(** [OutputDistributionIndex] *)
Definition kOutputDistributionIndexCalibratedSensorOutputSDP8x6Linear500Pa : nat := 0.
Definition kOutputDistributionIndexCalibratedSensorOutputSDP8x6Linear125Pa : nat := 1.
Definition kOutputDistributionIndexCalibratedSensorOutputSDP8x6Sqrt500Pa : nat := 2.
Definition kOutputDistributionIndexCalibratedSensorOutputSDP8x6Sqrt125Pa : nat := 3.
Definition kOutputDistributionIndexCalibratedSensorOutputMax : nat := 4.

#[warnings="-inexact-float"]
Definition kDefaultInputDistributionAoutUniformDistLow : float := 1.3.
#[warnings="-inexact-float"]
Definition kDefaultInputDistributionAoutUniformDistHigh : float := 1.7.
Definition kDefaultInputDistributionVddUniformDistLow : float := 3.5.
#[warnings="-inexact-float"]
Definition kDefaultInputDistributionVddUniformDistHigh : float := 3.9.

(** ** Declarations main.c takes from headers that are not among the sources *)

(** Modelled from the spec: the [MeanAndVariance] record of the common
    utility routines, [{mean: real, variance: real}]. *)
Record MeanAndVariance := { mean : float; variance : float }.

(** The fields of [arguments.common] that main.c reads. [size_t] fields are
    natural numbers, [bool] fields booleans, the path a string. *)
Record CommonCommandLineArguments := {
  outputSelect : nat;
  isMonteCarloMode : bool;
  numberOfMonteCarloIterations : nat;
  isTimingEnabled : bool;
  isBenchmarkingMode : bool;
  isOutputJSONMode : bool;
  isWriteToFileEnabled : bool;
  outputFilePath : string
}.

Record CommandLineArguments := { common : CommonCommandLineArguments }.

(** ** C objects

    An object that has been declared but not assigned holds no defined
    value: it is [None], and [Some v] once [v] has been stored. The output
    array and the sample buffer are lists of such objects, indexed from 0.
    The two entries of the input array are always written before they are
    read, so that array is a list of [double]s, whatever it holds at first.
    Every index used on the two local arrays is a constant below the declared
    size, so stdpp's insert (which leaves the list alone out of range, where
    C has no defined behaviour) is not used out of range on them. *)

#[global] Instance float_inhabited : Inhabited float := populate 0.

(** Conversion of a signed integer to [double]: the correctly rounded
    binary64 value. *)
Definition double_of_Z (z : Z) : float :=
  SF2Prim (binary_normalize prec emax z 0 false).

(** The integer part of a [spec_float], rounding toward zero. *)
Definition SFtrunc (x : spec_float) : option Z :=
  match x with
  | S754_zero _ => Some 0%Z
  | S754_finite s m e =>
      let a := match e with
               | Zneg p => Z.shiftr (Zpos m) (Zpos p)
               | _ => Z.shiftl (Zpos m) e
               end in
      Some (if s then Z.opp a else a)
  | S754_infinity _ | S754_nan => None
  end.

(** The cast [(uint64_t) x] of a [double]: the value truncated toward zero
    when that is representable in 64 bits, undefined otherwise. *)
Definition uint64_of_double (x : float) : option Z :=
  z ← SFtrunc (Prim2SF x);
  if ((0 <=? z)%Z && (z <? 2 ^ 64)%Z)%bool then Some z else None.

(** ** main.c *)

Definition sign (arg : float) : float :=
  if arg =? 0 then 0 else arg / abs arg.

(** What the program does to the outside, in the order it does it: one
    entry per call of a routine that is not in main.c. *)
Inductive printf_arg :=
  | ArgDouble (v : option float)
  | ArgUint64 (v : option Z).

Inductive event :=
  | EvCheckedMalloc (bytes : nat)
  | EvClock (ticks : Z)
  | EvCalculateMeanAndVarianceOfDoubleSamples
      (samples : option (list (option float))) (n : nat)
  | EvPrintf (format : string) (args : list printf_arg)
  | EvPrintCalibratedValueAndProbabilities (value : option float) (name : option string)
  | EvPrintJSONFormattedOutput
      (arguments : CommandLineArguments)
      (samples : option (list (option float)))
      (outputs : list (option float)) (names : list string)
  | EvWriteOutputDoubleDistributionsToCSV
      (path : string) (outputs : list (option float)) (names : list string) (n : nat)
  | EvSaveMonteCarloDoubleDataToDataDotOutFile
      (samples : option (list (option float))) (microseconds : option Z) (n : nat)
  | EvFree (samples : option (list (option float))).

(** What the outside answers during one run. *)
Record World := {
  (** [getCommandLineArguments]: the filled-in struct when it returns 0,
      [None] when it returns an error. *)
  getCommandLineArguments : option CommandLineArguments;
  (** Modelled from the spec: [checkedMalloc] either obtains the storage
      ([true]) or terminates the process at once ([false]). *)
  checkedMalloc : bool;
  (** [UxHwDoubleUniformDist], by call number. *)
  UxHwDoubleUniformDist : nat -> float -> float -> float;
  (** [clock], by call number. *)
  clock : nat -> Z;
  (** The value [writeOutputDoubleDistributionsToCSV] returns. *)
  writeOutputDoubleDistributionsToCSV : Z;
  (** What the two entries of [inputDistributions] happen to hold before
      they are first written. *)
  indeterminateInput : float
}.

(** How a run of [main] ends. *)
Inductive outcome :=
  | Returned (code : Z)
  | Terminated.

(** The local variables of [main], with the trace of calls made so far. *)
Record locals := Locals {
  calibratedSensorOutput : option float;
  monteCarloOutputSamples : option (list (option float));
  start : option Z;
  end_ : option Z;
  cpuTimeUsedSeconds : option float;
  inputDistributions : list float;
  outputDistributions : list (option float);
  meanAndVariance : option MeanAndVariance;
  trace : list event
}.

Definition outputVariableNames : list string :=
  [ "Calibrated Sensor Output SDP8x6 Linear 500Pa";
    "Calibrated Sensor Output SDP8x6 Linear 125Pa";
    "Calibrated Sensor Output SDP8x6 Square 500Pa";
    "Calibrated Sensor Output SDP8x6 Square 125Pa" ]%string.

Definition emit (e : event) (s : locals) : locals :=
  Locals (calibratedSensorOutput s) (monteCarloOutputSamples s) (start s) (end_ s)
         (cpuTimeUsedSeconds s) (inputDistributions s) (outputDistributions s)
         (meanAndVariance s) (trace s ++ [e]).

Definition newline : string := String "010"%char EmptyString.

(** [sizeof(double)], and the 64-bit [size_t] product of an allocation
    request. *)
Definition sizeof_double : Z := 8.

Definition size_t_mul (a b : Z) : Z := ((a * b) mod 2 ^ 64)%Z.

(** Reads [n] assigned doubles from an array; no defined result when an
    entry in that range was never assigned or the array is shorter. *)
Fixpoint readDoubles (a : list (option float)) (n : nat) : option (list float) :=
  match n with
  | O => Some []
  | S n' =>
      match a with
      | Some x :: a' => xs ← readDoubles a' n'; Some (x :: xs)
      | _ => None
      end
  end.

(** Conversion of a [size_t] count to [double]. *)
Definition double_of_size_t (n : nat) : float := double_of_Z (Z.of_nat n).

(** The sum of an array of [double]s, accumulated from 0 in index order. *)
Definition sumOfDoubles (xs : list float) : float :=
  fold_left (fun acc x => acc + x) xs 0.

(** Modelled from the spec: [calculateMeanAndVarianceOfDoubleSamples] of the
    common utility routines is not among the sources. The spec describes it
    as a reduction of the sample sequence to [{mean, variance}] in which the
    mean is the arithmetic average; the variance is taken here as the
    average squared deviation from that mean, computed in a second pass. *)
Definition calculateMeanAndVarianceOfDoubleSamples
    (dataArray : list float) (dataArraySize : nat) : MeanAndVariance :=
  let mean := sumOfDoubles dataArray / double_of_size_t dataArraySize in
  let squares := map (fun x => (x - mean) * (x - mean)) dataArray in
  {| mean := mean;
     variance := sumOfDoubles squares / double_of_size_t dataArraySize |}.

Section Program.

(** The C library's [pow]. *)
Variable pow : float -> float -> float.
(** [CLOCKS_PER_SEC] of <time.h> and [PRIu64] of <inttypes.h>. *)
Variable CLOCKS_PER_SEC : Z.
Variable PRIu64 : string.
(** The error code of the common utility routines. *)
Variable kCommonConstantReturnTypeError : Z.

Definition setInputDistributionsViaUxHwCall
    (uniform : nat -> float -> float -> float) (call : nat)
    (inputDistributions : list float) : list float :=
  let inputDistributions :=
    <[ kInputDistributionIndexAout :=
         uniform call
           kDefaultInputDistributionAoutUniformDistLow
           kDefaultInputDistributionAoutUniformDistHigh ]> inputDistributions in
  <[ kInputDistributionIndexVdd :=
       uniform (S call)
         kDefaultInputDistributionVddUniformDistLow
         kDefaultInputDistributionVddUniformDistHigh ]> inputDistributions.

(** Returns the value of the local [calibratedValue] (unassigned when no
    branch ran) and the output array after the writes. *)
Definition calculateSensorOutput
    (arguments : CommandLineArguments)
    (inputDistributions : list float)
    (outputDistributions : list (option float))
  : option float * list (option float) :=
  let Vdd : float := inputDistributions !!! kInputDistributionIndexVdd in
  let Aout : float := inputDistributions !!! kInputDistributionIndexAout in
  let calibratedValue : option float := None in
  let calculateAllOutputs :=
    (outputSelect (common arguments) =?
       kOutputDistributionIndexCalibratedSensorOutputMax)%nat in
  let '(calibratedValue, outputDistributions) :=
    if calculateAllOutputs ||
       (outputSelect (common arguments) =?
          kOutputDistributionIndexCalibratedSensorOutputSDP8x6Linear500Pa)%nat
    then
      let calibratedValue :=
        kSensorCalibrationConstantSDP8x6Linear500Pa1 * Aout / Vdd
        - kSensorCalibrationConstantSDP8x6Linear500Pa2 in
      (Some calibratedValue,
       <[ kOutputDistributionIndexCalibratedSensorOutputSDP8x6Linear500Pa :=
            Some calibratedValue ]> outputDistributions)
    else (calibratedValue, outputDistributions) in
  let '(calibratedValue, outputDistributions) :=
    if calculateAllOutputs ||
       (outputSelect (common arguments) =?
          kOutputDistributionIndexCalibratedSensorOutputSDP8x6Linear125Pa)%nat
    then
      let calibratedValue :=
        kSensorCalibrationConstantSDP8x6Linear125Pa1 * Aout / Vdd
        - kSensorCalibrationConstantSDP8x6Linear125Pa2 in
      (Some calibratedValue,
       <[ kOutputDistributionIndexCalibratedSensorOutputSDP8x6Linear125Pa :=
            Some calibratedValue ]> outputDistributions)
    else (calibratedValue, outputDistributions) in
  let '(calibratedValue, outputDistributions) :=
    if calculateAllOutputs ||
       (outputSelect (common arguments) =?
          kOutputDistributionIndexCalibratedSensorOutputSDP8x6Sqrt500Pa)%nat
    then
      let calibratedValue :=
        sign ((Aout / Vdd) - kSensorCalibrationConstantSDP8x6Sqrt500Pa1) *
        pow ((Aout / (Vdd * kSensorCalibrationConstantSDP8x6Sqrt500Pa2)) -
             kSensorCalibrationConstantSDP8x6Sqrt500Pa3) 2 *
        kSensorCalibrationConstantSDP8x6Sqrt500Pa4 in
      (Some calibratedValue,
       <[ kOutputDistributionIndexCalibratedSensorOutputSDP8x6Sqrt500Pa :=
            Some calibratedValue ]> outputDistributions)
    else (calibratedValue, outputDistributions) in
  let '(calibratedValue, outputDistributions) :=
    if calculateAllOutputs ||
       (outputSelect (common arguments) =?
          kOutputDistributionIndexCalibratedSensorOutputSDP8x6Sqrt125Pa)%nat
    then
      let calibratedValue :=
        sign ((Aout / Vdd) - kSensorCalibrationConstantSDP8x6Sqrt125Pa1) *
        pow ((Aout / (Vdd * kSensorCalibrationConstantSDP8x6Sqrt125Pa2)) -
             kSensorCalibrationConstantSDP8x6Sqrt125Pa3) 2 *
        kSensorCalibrationConstantSDP8x6Sqrt125Pa4 in
      (Some calibratedValue,
       <[ kOutputDistributionIndexCalibratedSensorOutputSDP8x6Sqrt125Pa :=
            Some calibratedValue ]> outputDistributions)
    else (calibratedValue, outputDistributions) in
  (calibratedValue, outputDistributions).

(** *** [main], block by block *)

Definition initialLocals (w : World) : locals :=
  {| calibratedSensorOutput := None;
     monteCarloOutputSamples := None;
     start := None;
     end_ := None;
     cpuTimeUsedSeconds := None;
     inputDistributions := replicate kInputDistributionIndexMax (indeterminateInput w);
     outputDistributions :=
       replicate kOutputDistributionIndexCalibratedSensorOutputMax None;
     meanAndVariance := None;
     trace := [] |}.

(** Lines 158-164: the sample buffer. The second component is [Some o]
    when the run ends in this block with outcome [o]. *)
Definition allocateSamples (w : World) (arguments : CommandLineArguments)
    (s : locals) : locals * option outcome :=
  if isMonteCarloMode (common arguments) then
    let bytes :=
      size_t_mul (Z.of_nat (numberOfMonteCarloIterations (common arguments)))
                 sizeof_double in
    let s := emit (EvCheckedMalloc (Z.to_nat bytes)) s in
    if checkedMalloc w then
      ({| calibratedSensorOutput := calibratedSensorOutput s;
          monteCarloOutputSamples :=
            Some (replicate (Z.to_nat (bytes / sizeof_double)) None);
          start := start s;
          end_ := end_ s;
          cpuTimeUsedSeconds := cpuTimeUsedSeconds s;
          inputDistributions := inputDistributions s;
          outputDistributions := outputDistributions s;
          meanAndVariance := meanAndVariance s;
          trace := trace s |}, None)
    else (s, Some Terminated)
  else (s, None).

(** Lines 169-172. *)
Definition startTiming (w : World) (arguments : CommandLineArguments)
    (s : locals) : locals :=
  if isTimingEnabled (common arguments) || isBenchmarkingMode (common arguments) then
    let s := emit (EvClock (clock w 0)) s in
    {| calibratedSensorOutput := calibratedSensorOutput s;
       monteCarloOutputSamples := monteCarloOutputSamples s;
       start := Some (clock w 0);
       end_ := end_ s;
       cpuTimeUsedSeconds := cpuTimeUsedSeconds s;
       inputDistributions := inputDistributions s;
       outputDistributions := outputDistributions s;
       meanAndVariance := meanAndVariance s;
       trace := trace s |}
  else s.

(** Lines 181-191: the body of the loop at index [i]. The store into the
    sample buffer happens in Monte Carlo mode only, where the buffer was
    obtained before the loop. *)
Definition iteration (w : World) (arguments : CommandLineArguments)
    (i : nat) (s : locals) : locals :=
  let inputDistributions :=
    setInputDistributionsViaUxHwCall (UxHwDoubleUniformDist w) (2 * i)
      (inputDistributions s) in
  let '(calibratedSensorOutput, outputDistributions) :=
    calculateSensorOutput arguments inputDistributions (outputDistributions s) in
  {| calibratedSensorOutput := calibratedSensorOutput;
     monteCarloOutputSamples :=
       if isMonteCarloMode (common arguments)
       then (fun samples => <[ i := calibratedSensorOutput ]> samples)
              <$> monteCarloOutputSamples s
       else monteCarloOutputSamples s;
     start := start s;
     end_ := end_ s;
     cpuTimeUsedSeconds := cpuTimeUsedSeconds s;
     inputDistributions := inputDistributions;
     outputDistributions := outputDistributions;
     meanAndVariance := meanAndVariance s;
     trace := trace s |}.

(** Lines 174-192: [for (i = first; i < first + count; i++)]. *)
Fixpoint samplingLoop (w : World) (arguments : CommandLineArguments)
    (first count : nat) (s : locals) : locals :=
  match count with
  | O => s
  | S count' =>
      samplingLoop w arguments (S first) count' (iteration w arguments first s)
  end.

(** Lines 198-204. *)
Definition reduceSamples (arguments : CommandLineArguments) (s : locals) : locals :=
  if isMonteCarloMode (common arguments) then
    let n := numberOfMonteCarloIterations (common arguments) in
    let s := emit (EvCalculateMeanAndVarianceOfDoubleSamples
                     (monteCarloOutputSamples s) n) s in
    let result :=
      samples ← monteCarloOutputSamples s;
      dataArray ← readDoubles samples n;
      Some (calculateMeanAndVarianceOfDoubleSamples dataArray n) in
    {| calibratedSensorOutput := mean <$> result;
       monteCarloOutputSamples := monteCarloOutputSamples s;
       start := start s;
       end_ := end_ s;
       cpuTimeUsedSeconds := cpuTimeUsedSeconds s;
       inputDistributions := inputDistributions s;
       outputDistributions := outputDistributions s;
       meanAndVariance := result;
       trace := trace s |}
  else s.

(** Lines 209-213. *)
Definition stopTiming (w : World) (arguments : CommandLineArguments)
    (s : locals) : locals :=
  if isTimingEnabled (common arguments) || isBenchmarkingMode (common arguments) then
    let s := emit (EvClock (clock w 1)) s in
    {| calibratedSensorOutput := calibratedSensorOutput s;
       monteCarloOutputSamples := monteCarloOutputSamples s;
       start := start s;
       end_ := Some (clock w 1);
       cpuTimeUsedSeconds :=
         (fun start => double_of_Z (clock w 1 - start) / double_of_Z CLOCKS_PER_SEC)
           <$> start s;
       inputDistributions := inputDistributions s;
       outputDistributions := outputDistributions s;
       meanAndVariance := meanAndVariance s;
       trace := trace s |}
  else s.

(** [(uint64_t)(cpuTimeUsedSeconds*1000000)]. *)
Definition microseconds (s : locals) : option Z :=
  seconds ← cpuTimeUsedSeconds s; uint64_of_double (seconds * 1000000).

(** Lines 233-236. *)
Definition printAllOutputs (s : locals) : locals :=
  foldl
    (fun s i =>
       emit (EvPrintCalibratedValueAndProbabilities
               (mjoin (outputDistributions s !! i)) (outputVariableNames !! i)) s)
    s (seq 0 kOutputDistributionIndexCalibratedSensorOutputMax).

(** Lines 215-276. The second component is [Some o] when [main] returns
    in this block. *)
Definition report (w : World) (arguments : CommandLineArguments)
    (s : locals) : locals * option outcome :=
  if isBenchmarkingMode (common arguments) then
    (emit (EvPrintf ("%lf %" +:+ PRIu64 +:+ newline)
             [ArgDouble (calibratedSensorOutput s); ArgUint64 (microseconds s)]) s,
     None)
  else
    let s :=
      if negb (isOutputJSONMode (common arguments)) then
        if (outputSelect (common arguments) =?
              kOutputDistributionIndexCalibratedSensorOutputMax)%nat
        then printAllOutputs s
        else
          emit (EvPrintCalibratedValueAndProbabilities
                  (calibratedSensorOutput s)
                  (outputVariableNames !! outputSelect (common arguments))) s
      else
        emit (EvPrintJSONFormattedOutput arguments (monteCarloOutputSamples s)
                (outputDistributions s) outputVariableNames) s in
    let s :=
      if isTimingEnabled (common arguments) then
        emit (EvPrintf (newline +:+ "CPU time used: %lf seconds" +:+ newline)
                [ArgDouble (cpuTimeUsedSeconds s)]) s
      else s in
    if isWriteToFileEnabled (common arguments) then
      let s :=
        emit (EvWriteOutputDoubleDistributionsToCSV
                (outputFilePath (common arguments)) (outputDistributions s)
                outputVariableNames
                kOutputDistributionIndexCalibratedSensorOutputMax) s in
      if (writeOutputDoubleDistributionsToCSV w =? 0)%Z
      then (s, None)
      else (s, Some (Returned kCommonConstantReturnTypeError))
    else (s, None).

(** Lines 282-287. *)
Definition saveAndFree (arguments : CommandLineArguments) (s : locals) : locals :=
  if isMonteCarloMode (common arguments) then
    let s :=
      emit (EvSaveMonteCarloDoubleDataToDataDotOutFile
              (monteCarloOutputSamples s) (microseconds s)
              (numberOfMonteCarloIterations (common arguments))) s in
    emit (EvFree (monteCarloOutputSamples s)) s
  else s.

(** The locals as they are when [main] reaches its reporting block. *)
Definition beforeReport (w : World) (arguments : CommandLineArguments)
    (s : locals) : locals :=
  stopTiming w arguments
    (reduceSamples arguments
       (samplingLoop w arguments 0
          (numberOfMonteCarloIterations (common arguments))
          (startTiming w arguments s))).

Definition main (w : World) : outcome * locals :=
  let s := initialLocals w in
  match getCommandLineArguments w with
  | None => (Returned kCommonConstantReturnTypeError, s)
  | Some arguments =>
      match allocateSamples w arguments s with
      | (s, Some o) => (o, s)
      | (s, None) =>
          let s := beforeReport w arguments s in
          match report w arguments s with
          | (s, Some o) => (o, s)
          | (s, None) => (Returned 0, saveAndFree arguments s)
          end
      end
  end.

End Program.

(** ** The calibration formulas, as the specification words them

    The square of the square-root curves is the one the C library computes,
    [pow (..) 2]. *)
Section Formulas.

Variable pow : float -> float -> float.

Definition spec_Linear500Pa (Aout Vdd : float) : float :=
  750 * Aout / Vdd - 150.

Definition spec_Linear125Pa (Aout Vdd : float) : float :=
  190 * Aout / Vdd - 38.

#[warnings="-inexact-float"]
Definition spec_Sqrt500Pa (Aout Vdd : float) : float :=
  sign (Aout / Vdd - 0.5) * pow (Aout / (Vdd * 0.4) - 1.25) 2 * 525.

#[warnings="-inexact-float"]
Definition spec_Sqrt125Pa (Aout Vdd : float) : float :=
  sign (Aout / Vdd - 0.5) * pow (Aout / (Vdd * 0.4) - 1.25) 2 * 133.

(** The formula of the variant with a given output index. *)
Definition spec_variant (index : nat) (Aout Vdd : float) : option float :=
  match index with
  | 0 => Some (spec_Linear500Pa Aout Vdd)
  | 1 => Some (spec_Linear125Pa Aout Vdd)
  | 2 => Some (spec_Sqrt500Pa Aout Vdd)
  | 3 => Some (spec_Sqrt125Pa Aout Vdd)
  | _ => None
  end.

End Formulas.

(** ** The calibration formulas, as the claim states them

    A second wording, independent of the code: the constants are written
    out, the square is the rounded product, and the sign function is a
    parameter, so that it can be the specification's ("0 when x == 0, else
    x/|x|") or the reading it gives of it ("+1/-1"). *)

(** "[sign(x)] is defined as 0 when [x == 0], else [x/|x|]". *)
Definition stated_sign (x : float) : float :=
  if x =? 0 then 0 else x / abs x.

(** "(i.e., +1/-1)": +1 above 0, -1 below 0, and 0 at 0. *)
Definition unit_sign (x : float) : float :=
  if 0 <? x then 1 else if x <? 0 then -1 else 0.

Definition stated_square (x : float) : float := x * x.

#[warnings="-inexact-float"]
Definition stated_variant (sgn : float -> float) (index : nat) (Aout Vdd : float)
    : option float :=
  match index with
  | 0 => Some (750 * Aout / Vdd - 150)
  | 1 => Some (190 * Aout / Vdd - 38)
  | 2 => Some (sgn (Aout / Vdd - 0.5) * stated_square (Aout / (Vdd * 0.4) - 1.25) * 525)
  | 3 => Some (sgn (Aout / Vdd - 0.5) * stated_square (Aout / (Vdd * 0.4) - 1.25) * 133)
  | _ => None
  end.

(** The inputs of iteration [i]: the two draws it makes. *)
Definition drawn (w : World) (i : nat) : list float :=
  [ UxHwDoubleUniformDist w (2 * i)
      kDefaultInputDistributionAoutUniformDistLow
      kDefaultInputDistributionAoutUniformDistHigh;
    UxHwDoubleUniformDist w (S (2 * i))
      kDefaultInputDistributionVddUniformDistLow
      kDefaultInputDistributionVddUniformDistHigh ].

(** The scalar that [calculateSensorOutput] returns in iteration [i]. *)
Definition tracked (pow : float -> float -> float)
    (arguments : CommandLineArguments) (w : World) (i : nat) : option float :=
  (calculateSensorOutput pow arguments (drawn w i)
     (replicate kOutputDistributionIndexCalibratedSensorOutputMax None)).1.

(** Whether the run is timed (lines 169 and 209). *)
Definition timed (arguments : CommandLineArguments) : bool :=
  isTimingEnabled (common arguments) || isBenchmarkingMode (common arguments).

(** ** Classes of binary64 values *)

(** Not a NaN. *)
Definition nonnan (x : spec_float) : bool :=
  match x with
  | S754_nan => false
  | _ => true
  end.

(** A zero or a finite number. *)
Definition real (x : spec_float) : bool :=
  match x with
  | S754_zero _ | S754_finite _ _ _ => true
  | S754_infinity _ | S754_nan => false
  end.

(** Not a NaN, and carrying the sign bit [s]. *)
Definition signed (s : bool) (x : spec_float) : bool :=
  match x with
  | S754_zero s' | S754_infinity s' | S754_finite s' _ _ => Bool.eqb s' s
  | S754_nan => false
  end.

(** A [double] that denotes a real number: not a NaN and not an infinity. *)
Definition is_real (x : float) : bool := real (Prim2SF x).

(** The rational number a finite [double] denotes. *)
Definition SF2Q (x : spec_float) : option Q :=
  match x with
  | S754_zero _ => Some 0%Q
  | S754_finite s m e => Some (inject_Z (cond_Zopp s (Zpos m)) * 2 ^ e)%Q
  | S754_infinity _ | S754_nan => None
  end.

Definition double_to_Q (x : float) : option Q := SF2Q (Prim2SF x).

(** An entry of the output table holds a number within [tolerance] of [v]. *)
Definition entryWithin (entry : option (option float)) (v tolerance : Q) : Prop :=
  exists (x : float) (q : Q),
    entry = Some (Some x) /\ double_to_Q x = Some q /\ (Qabs (q - v) <= tolerance)%Q.

(** The midpoints of the input intervals, Aout = 1.5 and Vdd = 3.7. *)
#[warnings="-inexact-float"]
Definition midpointInputs : list float := [1.5; 3.7].

(** ** Reading a trace *)

(** The calls that report results: the ones that print, and the CSV write. *)
Definition isReport (e : event) : bool :=
  match e with
  | EvPrintf _ _
  | EvPrintCalibratedValueAndProbabilities _ _
  | EvPrintJSONFormattedOutput _ _ _ _
  | EvWriteOutputDoubleDistributionsToCSV _ _ _ _ => true
  | _ => false
  end.


Definition isSave (e : event) : bool :=
  match e with
  | EvSaveMonteCarloDoubleDataToDataDotOutFile _ _ _ => true
  | _ => false
  end.

Definition isFree (e : event) : bool :=
  match e with
  | EvFree _ => true
  | _ => false
  end.

Definition isClock (e : event) : bool :=
  match e with
  | EvClock _ => true
  | _ => false
  end.

Definition isReduction (e : event) : bool :=
  match e with
  | EvCalculateMeanAndVarianceOfDoubleSamples _ _ => true
  | _ => false
  end.

(** The elapsed-microseconds arguments with which the auxiliary data file
    was written. *)
Definition savedMicroseconds (t : list event) : list (option Z) :=
  flat_map (fun e => match e with
                     | EvSaveMonteCarloDoubleDataToDataDotOutFile _ us _ => [us]
                     | _ => []
                     end) t.

(** The arrays keep their declared sizes. *)
Definition sized (s : locals) : Prop :=
  length (inputDistributions s) = kInputDistributionIndexMax /\
  length (outputDistributions s) = kOutputDistributionIndexCalibratedSensorOutputMax.

(** ** A platform and runs to execute the model on

    [pow_square] stands in for the C library's [pow] at the only exponent
    the program uses, 2; the clock ticks in microseconds, [PRIu64] is
    ["lu"] and the error code is 1. *)
Definition pow_square (x y : float) : float := x * x.

Definition run_main (w : World) : outcome * locals :=
  main pow_square 1000000 "lu" 1 w.

Definition exampleArguments (select : nat) (monteCarlo : bool) (iterations : nat)
    (timing benchmarking json writeToFile : bool) : CommandLineArguments :=
  {| common :=
       {| outputSelect := select;
          isMonteCarloMode := monteCarlo;
          numberOfMonteCarloIterations := iterations;
          isTimingEnabled := timing;
          isBenchmarkingMode := benchmarking;
          isOutputJSONMode := json;
          isWriteToFileEnabled := writeToFile;
          outputFilePath := "out.csv" |} |}.

(** A world whose draws are the midpoints of the requested intervals plus a
    small step per call, whose clock advances 1234 ticks per call, and whose
    CSV write returns [csv]. *)
Definition exampleWorld (arguments : CommandLineArguments) (csv : Z) : World :=
  {| getCommandLineArguments := Some arguments;
     checkedMalloc := true;
     UxHwDoubleUniformDist :=
       fun call low high => (low + high) / 2 + double_of_Z (Z.of_nat call) / 1024;
     clock := fun call => (Z.of_nat call * 1234)%Z;
     writeOutputDoubleDistributionsToCSV := csv;
     indeterminateInput := 0 |}.

(** A variant is computed in a pass when the selection is that variant or
    "all" ([kOutputDistributionIndexCalibratedSensorOutputMax]). *)
Definition computed (arguments : CommandLineArguments) (index : nat) : Prop :=
  index < kOutputDistributionIndexCalibratedSensorOutputMax /\
  (outputSelect (common arguments) = kOutputDistributionIndexCalibratedSensorOutputMax \/
   outputSelect (common arguments) = index).

(** ** Further definitions *)

(** An infinity or a NaN. *)
Definition special (x : spec_float) : bool := negb (real x).

(** Whether a pass computes the variant of a given index, as a boolean. *)
Definition computedb (arguments : CommandLineArguments) (index : nat) : bool :=
  (index <? kOutputDistributionIndexCalibratedSensorOutputMax)%nat &&
  ((outputSelect (common arguments) =? kOutputDistributionIndexCalibratedSensorOutputMax)%nat
   || (outputSelect (common arguments) =? index)%nat).

(** ** More ways to read a trace *)

(** The values and names handed to [printCalibratedValueAndProbabilities],
    in call order. *)
Definition printedValues (t : list event) : list (option float * option string) :=
  flat_map (fun e => match e with
                     | EvPrintCalibratedValueAndProbabilities v name => [(v, name)]
                     | _ => []
                     end) t.

(** The sample pointers and output tables handed to
    [printJSONFormattedOutput]. *)
Definition jsonReports (t : list event)
  : list (option (list (option float)) * list (option float)) :=
  flat_map (fun e => match e with
                     | EvPrintJSONFormattedOutput _ samples outputs _ => [(samples, outputs)]
                     | _ => []
                     end) t.

(** The paths, tables and row counts handed to
    [writeOutputDoubleDistributionsToCSV]. *)
Definition csvWrites (t : list event) : list (string * list (option float) * nat) :=
  flat_map (fun e => match e with
                     | EvWriteOutputDoubleDistributionsToCSV path outputs _ n =>
                         [(path, outputs, n)]
                     | _ => []
                     end) t.

(** The seconds printed by the CPU-time line (the [printf] with one
    argument). *)
Definition timingLines (t : list event) : list (option float) :=
  flat_map (fun e => match e with
                     | EvPrintf _ [ArgDouble seconds] => [seconds]
                     | _ => []
                     end) t.

(** The calls that concern the sample buffer or the clock. *)
Definition isBufferCall (e : event) : bool :=
  match e with
  | EvCheckedMalloc _
  | EvCalculateMeanAndVarianceOfDoubleSamples _ _
  | EvSaveMonteCarloDoubleDataToDataDotOutFile _ _ _
  | EvFree _ => true
  | _ => false
  end.

Definition isTimedCall (e : event) : bool :=
  match e with
  | EvClock _
  | EvCalculateMeanAndVarianceOfDoubleSamples _ _ => true
  | _ => false
  end.

(** Arguments whose iteration count, 2^61, times [sizeof(double)] is 2^64. *)
Definition wrappingArguments : CommandLineArguments :=
  exampleArguments 0 true (Z.to_nat (2 ^ 61)) false false false false.

(** The locals with which the loop starts. *)
Definition beforeLoop (w : World) (arguments : CommandLineArguments) : locals :=
  startTiming w arguments (allocateSamples w arguments (initialLocals w)).1.

(** * Properties *)

(** ** The sign function *)

Lemma SFdiv_core_binary_self (m : positive) (e : Z) :
  SFdiv_core_binary prec emax (Zpos m) e (Zpos m) e
  = ((2 ^ 53)%Z, (-53)%Z, loc_Exact).
Proof.
  unfold SFdiv_core_binary.
  rewrite !Z.sub_diag.
  change (Z.min (fexp prec emax 0) 0) with (-53)%Z.
  change (0 - -53)%Z with 53%Z.
  cbv iota beta.
  rewrite Z.shiftl_mul_pow2 by discriminate.
  assert (Hdiv : Z.div_eucl (Z.pos m * 2 ^ 53) (Z.pos m) = ((2 ^ 53)%Z, 0%Z)).
  { pose proof (Z.div_mul (2 ^ 53) (Z.pos m) ltac:(discriminate)) as Hq.
    pose proof (Z.mod_mul (2 ^ 53) (Z.pos m) ltac:(discriminate)) as Hr.
    rewrite (Z.mul_comm (2 ^ 53)) in Hq, Hr.
    unfold Z.div in Hq. unfold Z.modulo in Hr.
    destruct (Z.div_eucl (Z.pos m * 2 ^ 53) (Z.pos m)) as [q r].
    simpl in Hq, Hr. now subst. }
  rewrite Hdiv.
  unfold new_location, new_location_even, new_location_odd.
  now destruct (Z.even (Z.pos m)).
Qed.

Lemma SFdiv_abs_self (s : bool) (m : positive) (e : Z) :
  SF64div (S754_finite s m e) (SFabs (S754_finite s m e))
  = S754_finite s 4503599627370496 (-52).
Proof.
  unfold SF64div, SFabs, SFdiv.
  rewrite SFdiv_core_binary_self.
  now destruct s.
Qed.

Lemma Prim2SF_nonzero_real (x : float) :
  is_real x = true -> (x =? 0) = false ->
  exists s m e, Prim2SF x = S754_finite s m e.
Proof.
  unfold is_real, real. rewrite FloatAxioms.eqb_spec.
  destruct (Prim2SF x) as [s | s | | s m e]; try discriminate.
  intros _ _. now exists s, m, e.
Qed.

(** C5. [sign] returns exactly 0 (which is not a NaN) when its argument
    compares equal to 0, and for every argument that denotes a non-zero real
    number it returns [x / |x|], which is +1 for the positive ones and -1
    for the negative ones. *)
Theorem sign_zero_or_unit (x : float) :
  ((x =? 0) = true -> sign x = 0 /\ is_nan (sign x) = false) /\
  (is_real x = true -> (x =? 0) = false ->
     sign x = x / abs x /\
     (sign x = 1 \/ sign x = -1) /\
     ((0 <? x) = true -> sign x = 1) /\
     ((x <? 0) = true -> sign x = -1)).
Proof.
  unfold sign. split.
  - intros Hz. rewrite Hz. split; reflexivity.
  - intros Hreal Hne. rewrite Hne.
    destruct (Prim2SF_nonzero_real x Hreal Hne) as (s & m & e & Hx).
    assert (Hs : x / abs x = if s then -1 else 1).
    { apply Prim2SF_inj.
      rewrite FloatAxioms.div_spec, FloatAxioms.abs_spec, Hx, SFdiv_abs_self.
      now destruct s. }
    rewrite Hs, !FloatAxioms.ltb_spec, Hx.
    change (Prim2SF 0) with (S754_zero false).
    destruct s; cbn; repeat split; auto; discriminate.
Qed.

Lemma sign_zero_or_unit_witness :
  sign (-0) = 0 /\ sign (-2.5) = -2.5 / abs (-2.5) /\ sign (-2.5) = -1 /\ sign 0.125 = 1.
Proof.
  destruct (sign_zero_or_unit (-0)) as [Hz _].
  destruct (sign_zero_or_unit (-2.5)) as [_ Hn].
  destruct (sign_zero_or_unit 0.125) as [_ Hp].
  specialize (Hz eq_refl).
  specialize (Hn eq_refl eq_refl).
  specialize (Hp eq_refl eq_refl).
  destruct Hn as (Hquot & _ & _ & Hneg).
  destruct Hp as (_ & _ & Hpos & _).
  split; [apply Hz | split; [exact Hquot | split]].
  - exact (Hneg eq_refl).
  - exact (Hpos eq_refl).
Defined.

(** ** Signs of binary64 results

    Rounding keeps the sign it is given, so squares, sums of non-negative
    numbers and their quotients by a positive number are never negative and
    never NaN. *)

Module Binary64.

Lemma shr_1_nonneg (mrs : shr_record) :
  (0 <= shr_m mrs)%Z -> (0 <= shr_m (shr_1 mrs))%Z.
Proof. destruct mrs as [[|[p|p|]|p] r s]; cbn; lia. Qed.

Lemma iter_pos_shr_1_nonneg (k : positive) :
  forall mrs, (0 <= shr_m mrs)%Z -> (0 <= shr_m (SpecFloat.iter_pos shr_1 k mrs))%Z.
Proof.
  induction k as [k IH | k IH |]; intros mrs Hm; cbn.
  - apply IH, IH, shr_1_nonneg, Hm.
  - apply IH, IH, Hm.
  - apply shr_1_nonneg, Hm.
Qed.

Lemma shr_fexp_nonneg (m e : Z) (l : location) :
  (0 <= m)%Z -> (0 <= shr_m (shr_fexp prec emax m e l).1)%Z.
Proof.
  intros Hm. unfold shr_fexp, shr.
  assert (Hrec : (0 <= shr_m (shr_record_of_loc m l))%Z)
    by (destruct l as [|[| |]]; exact Hm).
  destruct (fexp prec emax (Zdigits2 m + e) - e)%Z; cbn [fst]; auto.
  now apply iter_pos_shr_1_nonneg.
Qed.

Lemma round_nearest_even_nonneg (m : Z) (l : location) :
  (0 <= m)%Z -> (0 <= round_nearest_even m l)%Z.
Proof.
  intros Hm. destruct l as [|[| |]]; cbn; try lia.
  destruct (Z.even m); lia.
Qed.

Lemma binary_round_aux_signed (s : bool) (m e : Z) (l : location) :
  (0 <= m)%Z -> signed s (binary_round_aux prec emax s m e l) = true.
Proof.
  intros Hm. unfold binary_round_aux.
  pose proof (shr_fexp_nonneg m e l Hm) as H1.
  destruct (shr_fexp prec emax m e l) as [mrs' e']. cbn [fst] in H1.
  pose proof (shr_fexp_nonneg _ e' loc_Exact
                (round_nearest_even_nonneg _ (loc_of_shr_record mrs') H1)) as H2.
  destruct (shr_fexp prec emax _ e' loc_Exact) as [mrs'' e'']. cbn [fst] in H2.
  destruct (shr_m mrs'') as [|p|p]; try lia.
  - cbn. now destruct s.
  - destruct (e'' <=? emax - prec)%Z; cbn; now destruct s.
Qed.

Lemma binary_round_signed (s : bool) (m : positive) (e : Z) :
  signed s (binary_round prec emax s m e) = true.
Proof.
  unfold binary_round.
  destruct (shl_align m e _) as [mz ez].
  now apply binary_round_aux_signed.
Qed.

Lemma signed_nonnan (s : bool) (x : spec_float) :
  signed s x = true -> nonnan x = true.
Proof. now destruct x. Qed.

Lemma binary_normalize_nonnan (m e : Z) :
  nonnan (binary_normalize prec emax m e false) = true.
Proof.
  destruct m as [|p|p]; cbn [binary_normalize]; [reflexivity| |];
    eapply signed_nonnan, binary_round_signed.
Qed.

Lemma SFmul_self_signed (x : spec_float) :
  nonnan x = true -> signed false (SF64mul x x) = true.
Proof.
  destruct x as [s|s| |s m e]; try discriminate; intros _; cbn.
  - now destruct s.
  - now destruct s.
  - replace (xorb s s) with false by now destruct s.
    now apply binary_round_aux_signed.
Qed.

Lemma SFadd_signed (x y : spec_float) :
  signed false x = true -> signed false y = true ->
  signed false (SF64add x y) = true.
Proof.
  destruct x as [[|]|[|]| |[|] mx ex], y as [[|]|[|]| |[|] my ey];
    try discriminate; intros _ _; try reflexivity.
  unfold SF64add, SFadd, cond_Zopp.
  cbn [binary_normalize Z.add].
  apply binary_round_signed.
Qed.

Lemma SFdiv_core_binary_nonneg (m1 : positive) (e1 : Z) (m2 : positive) (e2 : Z) :
  (0 <= (SFdiv_core_binary prec emax (Zpos m1) e1 (Zpos m2) e2).1.1)%Z.
Proof.
  unfold SFdiv_core_binary.
  set (s := (e1 - e2 - _)%Z).
  set (m' := match s with Z.pos _ => Z.shiftl (Z.pos m1) s | 0%Z => Z.pos m1 | _ => 0%Z end).
  assert (Hm' : (0 <= m')%Z).
  { subst m'. destruct s; try lia. apply Z.shiftl_nonneg. lia. }
  pose proof (Z.div_pos m' (Zpos m2) Hm' ltac:(lia)) as Hq.
  unfold Z.div in Hq.
  destruct (Z.div_eucl m' (Z.pos m2)) as [q r]. exact Hq.
Qed.

Lemma SFdiv_finite_signed (sx : bool) (mx : positive) (ex : Z) (my : positive) (ey : Z) :
  signed sx (SF64div (S754_finite sx mx ex) (S754_finite false my ey)) = true.
Proof.
  unfold SF64div, SFdiv.
  pose proof (SFdiv_core_binary_nonneg mx ex my ey) as Hq.
  destruct (SFdiv_core_binary prec emax (Z.pos mx) ex (Z.pos my) ey) as [[mz ez] lz].
  cbn in Hq. rewrite xorb_false_r.
  now apply binary_round_aux_signed.
Qed.

Lemma SFdiv_signed (x : spec_float) (m : positive) (e : Z) :
  signed false x = true ->
  signed false (SF64div x (S754_finite false m e)) = true.
Proof.
  destruct x as [[|]|[|]| |[|] mx ex]; try discriminate; intros _; try reflexivity.
  apply SFdiv_finite_signed.
Qed.

Lemma SFdiv_nonnan (x : spec_float) (m : positive) (e : Z) :
  nonnan x = true -> nonnan (SF64div x (S754_finite false m e)) = true.
Proof.
  destruct x as [s|s| |s mx ex]; try discriminate; intros _; try reflexivity.
  eapply signed_nonnan, SFdiv_finite_signed.
Qed.

Lemma SFadd_real_nonnan (x y : spec_float) :
  nonnan x = true -> real y = true -> nonnan (SF64add x y) = true.
Proof.
  destruct x as [sx|sx| |sx mx ex], y as [sy|sy| |sy my ey];
    try discriminate; intros _ _; try reflexivity.
  - now destruct sx, sy.
  - apply binary_normalize_nonnan.
Qed.

Lemma SFsub_real_nonnan (x y : spec_float) :
  real x = true -> nonnan y = true -> nonnan (SF64sub x y) = true.
Proof.
  destruct x as [sx|sx| |sx mx ex], y as [sy|sy| |sy my ey];
    try discriminate; intros _ _; try reflexivity.
  - now destruct sx, sy.
  - apply binary_normalize_nonnan.
Qed.

Lemma SFleb_zero_signed (x : spec_float) :
  signed false x = true -> SFleb (S754_zero false) x = true.
Proof. now destruct x as [[|]|[|]| |[|] m e]. Qed.

(** *** Conversion of positive integers *)

Lemma digits2_pos_size (p : positive) : digits2_pos p = Pos.size p.
Proof. induction p as [p IH | p IH |]; cbn; congruence. Qed.

Lemma digits2_pos_small (p : positive) :
  (Zpos p < 2 ^ 53)%Z -> (Zpos (digits2_pos p) <= 53)%Z.
Proof.
  intros Hp. rewrite digits2_pos_size.
  pose proof (Pos.size_le p) as Hle.
  assert (H2 : (2 ^ Zpos (Pos.size p) <= 2 * Zpos p)%Z).
  { rewrite <- Pos2Z.inj_pow. change (2 * Z.pos p)%Z with (Zpos p~0). lia. }
  destruct (Z.le_gt_cases (Zpos (Pos.size p)) 53) as [|Hgt]; [assumption|].
  assert (2 ^ 54 <= 2 ^ Zpos (Pos.size p))%Z by (apply Z.pow_le_mono_r; lia).
  change (2 ^ 54)%Z with (2 * 2 ^ 53)%Z in *. lia.
Qed.

Lemma digits2_pos_iter_xO (p k : positive) :
  digits2_pos (Pos.iter xO p k) = (digits2_pos p + k)%positive.
Proof.
  induction k as [|k IH] using Pos.peano_ind.
  - cbn. now rewrite Pos.add_1_r.
  - rewrite Pos.iter_succ. cbn. rewrite IH. now rewrite Pos.add_succ_r.
Qed.

(** A 53-digit mantissa with an exponent in range is left alone by
    rounding. *)
Lemma binary_round_aux_canonical (s : bool) (m : positive) (e : Z) :
  digits2_pos m = 53%positive -> (-1074 <= e <= 971)%Z ->
  binary_round_aux prec emax s (Zpos m) e loc_Exact = S754_finite s m e
  /\ valid_binary (S754_finite s m e) = true.
Proof.
  intros Hd He.
  assert (Hfexp : fexp prec emax (Zpos (digits2_pos m) + e) = e).
  { rewrite Hd. unfold fexp, SpecFloat.emin, prec, emax. lia. }
  split.
  - unfold binary_round_aux, shr_fexp. cbn [Zdigits2 shr_record_of_loc].
    rewrite Hfexp, Z.sub_diag. cbn [shr shr_m loc_of_shr_record round_nearest_even].
    cbn [Zdigits2 shr_record_of_loc].
    rewrite Hfexp, Z.sub_diag. cbn [shr shr_m].
    replace (e <=? emax - prec)%Z with true; [reflexivity|].
    symmetry. apply Z.leb_le. unfold emax, prec. lia.
  - cbn [SpecFloat.valid_binary]. unfold bounded, canonical_mantissa.
    rewrite Hfexp, Z.eqb_refl. cbn [andb].
    apply Z.leb_le. unfold emax, prec. lia.
Qed.

Lemma binary_round_small (p : positive) :
  (Zpos p < 2 ^ 53)%Z ->
  exists m e,
    binary_round prec emax false p 0 = S754_finite false m e /\
    valid_binary (S754_finite false m e) = true.
Proof.
  intros Hp. pose proof (digits2_pos_small p Hp) as Hd.
  unfold binary_round.
  assert (Hfexp : fexp prec emax (Zpos (digits2_pos p) + 0) = (Zpos (digits2_pos p) - 53)%Z).
  { unfold fexp, SpecFloat.emin, prec, emax. lia. }
  rewrite Hfexp. unfold shl_align. rewrite Z.sub_0_r.
  destruct (Zpos (digits2_pos p) - 53)%Z as [|k|k] eqn:Hk; try lia.
  - exists p, 0%Z. apply binary_round_aux_canonical; [|lia].
    assert (Zpos (digits2_pos p) = 53%Z) by lia. congruence.
  - exists (Pos.iter xO p k), (Z.neg k).
    apply binary_round_aux_canonical; [|lia].
    rewrite digits2_pos_iter_xO. lia.
Qed.

Lemma shr_1_div2 (mrs : shr_record) :
  (0 <= shr_m mrs)%Z -> shr_m (shr_1 mrs) = Z.shiftr (shr_m mrs) 1.
Proof. destruct mrs as [[|[p|p|]|p] r s]; cbn; try reflexivity; lia. Qed.

Lemma iter_pos_shr_1_shiftr (k : positive) :
  forall mrs, (0 <= shr_m mrs)%Z ->
    shr_m (SpecFloat.iter_pos shr_1 k mrs) = Z.shiftr (shr_m mrs) (Zpos k).
Proof.
  induction k as [k IH | k IH |]; intros mrs Hm; cbn [SpecFloat.iter_pos].
  - rewrite IH, IH, shr_1_div2 by auto using iter_pos_shr_1_nonneg, shr_1_nonneg.
    rewrite !Z.shiftr_shiftr by lia. f_equal. lia.
  - rewrite IH, IH by auto using iter_pos_shr_1_nonneg.
    rewrite !Z.shiftr_shiftr by lia. f_equal. lia.
  - now apply shr_1_div2.
Qed.

Lemma Zdigits2_log2 (p : positive) : Zdigits2 (Zpos p) = (Z.log2 (Zpos p) + 1)%Z.
Proof.
  cbn [Zdigits2]. rewrite digits2_pos_size.
  destruct p as [p|p|]; cbn; lia.
Qed.

Lemma Zdigits2_log2_pos (z : Z) : (0 < z)%Z -> Zdigits2 z = (Z.log2 z + 1)%Z.
Proof. destruct z as [|p|p]; try lia. intros _. apply Zdigits2_log2. Qed.

Lemma shr_fexp_shiftr (m e : Z) (l : location) :
  (0 <= m)%Z ->
  let k := Z.max 0 (fexp prec emax (Zdigits2 m + e) - e) in
  shr_m (shr_fexp prec emax m e l).1 = Z.shiftr m k /\
  (shr_fexp prec emax m e l).2 = (e + k)%Z.
Proof.
  intros Hm k. subst k. unfold shr_fexp, shr.
  assert (Hrec : shr_m (shr_record_of_loc m l) = m) by (destruct l as [|[| |]]; reflexivity).
  destruct (fexp prec emax (Zdigits2 m + e) - e)%Z as [|k|k]; cbn [fst snd].
  - rewrite Hrec, Z.shiftr_0_r. split; [reflexivity | lia].
  - rewrite iter_pos_shr_1_shiftr by (rewrite Hrec; exact Hm).
    rewrite Hrec. split; [reflexivity | lia].
  - rewrite Hrec. cbn [Z.max Z.compare]. rewrite Z.shiftr_0_r. split; [reflexivity | lia].
Qed.

Lemma round_nearest_even_bounds (m : Z) (l : location) :
  (m <= round_nearest_even m l <= m + 1)%Z.
Proof.
  destruct l as [|[| |]]; cbn; try lia. destruct (Z.even m); lia.
Qed.

Lemma log2_52 (m : Z) : (2 ^ 52 <= m < 2 ^ 53)%Z -> Z.log2 m = 52%Z.
Proof. intros Hm. apply Z.log2_unique; [lia | exact Hm]. Qed.

(** Rounding an integer too long for the mantissa gives a finite number. *)
Lemma binary_round_large (p : positive) :
  (53 <= Z.log2 (Zpos p) < 1023)%Z ->
  exists m e,
    binary_round prec emax false p 0 = S754_finite false m e /\
    valid_binary (S754_finite false m e) = true.
Proof.
  intros Hp.
  pose proof (Zdigits2_log2 p) as Hd. cbn [Zdigits2] in Hd.
  unfold binary_round.
  assert (Hfexp : fexp prec emax (Zpos (digits2_pos p) + 0) = (Z.log2 (Zpos p) - 52)%Z).
  { rewrite Hd. unfold fexp, SpecFloat.emin, prec, emax. lia. }
  rewrite Hfexp. unfold shl_align. rewrite Z.sub_0_r.
  destruct (Z.log2 (Zpos p) - 52)%Z as [|k|k] eqn:Hk; try lia.
  unfold binary_round_aux.
  destruct (shr_fexp_shiftr (Zpos p) 0 loc_Exact ltac:(lia)) as [Hm1 He1].
  cbv zeta in Hm1, He1.
  replace (Z.max 0 (fexp prec emax (Zdigits2 (Z.pos p) + 0) - 0)) with (Zpos k) in Hm1, He1
    by (cbn [Zdigits2]; rewrite Hfexp; lia).
  destruct (shr_fexp prec emax (Z.pos p) 0 loc_Exact) as [mrs' e']. cbn [fst snd] in Hm1, He1.
  subst e'.
  assert (Hlog1 : Z.log2 (shr_m mrs') = 52%Z).
  { rewrite Hm1, Z.log2_shiftr by lia. lia. }
  assert (Hb1 : (2 ^ 52 <= shr_m mrs' < 2 ^ 53)%Z).
  { assert (Hpos : (0 < shr_m mrs')%Z).
    { destruct (shr_m mrs') as [|q|q]; [discriminate Hlog1 | lia | discriminate Hlog1]. }
    pose proof (Z.log2_spec (shr_m mrs') Hpos) as Hspec. rewrite Hlog1 in Hspec. exact Hspec. }
  pose proof (round_nearest_even_bounds (shr_m mrs') (loc_of_shr_record mrs')) as Hround.
  set (m1' := round_nearest_even (shr_m mrs') (loc_of_shr_record mrs')) in *.
  clearbody m1'.
  destruct (shr_fexp_shiftr m1' (0 + Zpos k) loc_Exact ltac:(lia)) as [Hm2 He2].
  cbv zeta in Hm2, He2.
  assert (Hlogs : Z.log2 m1' = 52%Z \/ (Z.log2 m1' = 53%Z /\ m1' = (2 ^ 53)%Z)).
  { destruct (Z.eq_dec m1' (2 ^ 53)%Z) as [Heq | Hne]; [right; now rewrite Heq|].
    left. apply log2_52. lia. }
  assert (Hk2 : Z.max 0 (fexp prec emax (Zdigits2 m1' + (0 + Z.pos k)) - (0 + Z.pos k))
                = (Z.log2 m1' - 52)%Z).
  { rewrite Zdigits2_log2_pos by lia. unfold fexp, SpecFloat.emin, prec, emax.
    destruct Hlogs as [-> | [-> _]]; lia. }
  rewrite Hk2 in Hm2, He2.
  destruct (shr_fexp prec emax m1' (0 + Z.pos k) loc_Exact) as [mrs'' e''].
  cbn [fst snd] in Hm2, He2. subst e''.
  assert (Hb2 : (2 ^ 52 <= shr_m mrs'' < 2 ^ 53)%Z).
  { rewrite Hm2. destruct Hlogs as [Hl | [Hl ->]]; rewrite Hl.
    - rewrite Z.sub_diag, Z.shiftr_0_r.
      pose proof (Z.log2_spec m1' ltac:(lia)) as Hspec. rewrite Hl in Hspec. lia.
    - vm_compute. split; [discriminate | reflexivity]. }
  destruct (shr_m mrs'') as [|m|m] eqn:Hm; try lia.
  assert (Hdig : Zpos (digits2_pos m) = 53%Z).
  { pose proof (Zdigits2_log2 m) as Hdm. cbn [Zdigits2] in Hdm.
    rewrite Hdm, (log2_52 _ Hb2). reflexivity. }
  assert (He : (0 + Z.pos k + (Z.log2 m1' - 52) <= emax - prec)%Z).
  { unfold emax, prec. destruct Hlogs as [-> | [-> _]]; lia. }
  exists m, (0 + Z.pos k + (Z.log2 m1' - 52))%Z.
  apply Z.leb_le in He. rewrite He. split; [reflexivity|].
  cbn [SpecFloat.valid_binary]. unfold bounded, canonical_mantissa.
  rewrite He, andb_true_r. apply Z.eqb_eq.
  rewrite Hdig. unfold fexp, SpecFloat.emin, prec, emax.
  destruct Hlogs as [-> | [-> _]]; lia.
Qed.

(** Every positive integer that fits 64 bits converts to a positive finite
    [double]. *)
Lemma double_of_Z_positive (z : Z) :
  (0 < z < 2 ^ 64)%Z ->
  exists m e, Prim2SF (double_of_Z z) = S754_finite false m e.
Proof.
  intros [Hpos Hlt]. destruct z as [|p|p]; try lia.
  assert (Hround : exists m e,
             binary_round prec emax false p 0 = S754_finite false m e /\
             valid_binary (S754_finite false m e) = true).
  { destruct (Z.lt_ge_cases (Zpos p) (2 ^ 53)) as [Hsmall | Hlarge].
    - now apply binary_round_small.
    - apply binary_round_large. split.
      + apply Z.log2_le_pow2; lia.
      + apply Z.lt_trans with 64%Z; [apply Z.log2_lt_pow2; lia | lia]. }
  destruct Hround as (m & e & Hround & Hvalid).
  exists m, e. unfold double_of_Z. cbn [binary_normalize].
  rewrite Hround. now apply Prim2SF_SF2Prim.
Qed.

(** *** The cast to a 64-bit unsigned integer truncates *)

Lemma SFtrunc_magnitude (s : bool) (m : positive) (e : Z) (z : Z) :
  SFtrunc (S754_finite s m e) = Some z ->
  (inject_Z (Z.abs z) <= inject_Z (Zpos m) * 2 ^ e)%Q /\
  (inject_Z (Zpos m) * 2 ^ e < inject_Z (Z.abs z) + 1)%Q.
Proof.
  cbn [SFtrunc]. intros [= <-].
  set (a := match e with Z.neg p => Z.shiftr (Z.pos m) (Z.pos p) | _ => Z.shiftl (Z.pos m) e end).
  assert (Ha : (0 <= a)%Z).
  { subst a. destruct e; [apply Z.shiftl_nonneg | apply Z.shiftl_nonneg | apply Z.shiftr_nonneg]; lia. }
  replace (Z.abs (if s then (- a)%Z else a)) with a by (destruct s; lia).
  change 1%Q with (inject_Z 1). rewrite <- (inject_Z_plus a 1).
  destruct e as [|k|k]; subst a.
  - rewrite Z.shiftl_0_r. unfold Qle, Qlt. cbn. lia.
  - rewrite Z.shiftl_mul_pow2 by lia.
    rewrite <- (Zpower_Qpower 2 (Z.pos k)) by lia.
    rewrite <- inject_Z_mult, <- Zle_Qle, <- Zlt_Qlt. lia.
  - rewrite Z.shiftr_div_pow2 by lia.
    change (Z.neg k) with (- Z.pos k)%Z.
    rewrite Qpower_opp, <- (Zpower_Qpower 2 (Z.pos k)) by lia.
    assert (HP : (0 < 2 ^ Z.pos k)%Z) by (apply Z.pow_pos_nonneg; lia).
    assert (HPQ : (0 < inject_Z (2 ^ Z.pos k))%Q) by (rewrite <- (Zlt_Qlt 0); exact HP).
    split.
    + apply Qle_shift_div_l; [exact HPQ|].
      rewrite <- inject_Z_mult, <- Zle_Qle.
      pose proof (Z.mul_div_le (Z.pos m) _ HP). lia.
    + apply Qlt_shift_div_r; [exact HPQ|].
      rewrite <- inject_Z_mult, <- Zlt_Qlt.
      pose proof (Z.mul_succ_div_gt (Z.pos m) _ HP). lia.
Qed.

Lemma uint64_of_double_truncates (x : float) (z : Z) :
  uint64_of_double x = Some z ->
  (0 <= z < 2 ^ 64)%Z /\
  exists q, double_to_Q x = Some q /\
            (inject_Z z <= Qabs q)%Q /\ (Qabs q < inject_Z z + 1)%Q.
Proof.
  unfold uint64_of_double, double_to_Q.
  destruct (Prim2SF x) as [s|s| |s m e] eqn:Hx; try discriminate.
  - intros Hz. vm_compute in Hz. injection Hz as <-.
    split; [lia|]. exists 0%Q. split; [reflexivity|].
    split; [discriminate | reflexivity].
  - destruct (SFtrunc (S754_finite s m e)) as [z'|] eqn:Hz; [|discriminate].
    cbn [mbind option_bind].
    destruct ((0 <=? z')%Z && (z' <? 2 ^ 64)%Z) eqn:Hrange; [|discriminate].
    intros [= <-].
    apply andb_prop in Hrange. destruct Hrange as [H0 H64].
    apply Z.leb_le in H0. apply Z.ltb_lt in H64. split; [lia|].
    eexists. split; [reflexivity|].
    destruct (SFtrunc_magnitude s m e z' Hz) as [Hle Hlt].
    rewrite Z.abs_eq in Hle, Hlt by assumption.
    assert (Habs : (Qabs (inject_Z (cond_Zopp s (Z.pos m)) * 2 ^ e)
                    == inject_Z (Z.pos m) * 2 ^ e)%Q).
    { rewrite Qabs_Qmult.
      rewrite (Qabs_pos (2 ^ e)) by (apply Qlt_le_weak, Qpower_0_lt; reflexivity).
      now destruct s. }
    rewrite Habs. split; assumption.
Qed.

End Binary64.

(** ** The reduction to mean and variance *)

Section Reduction.

Import Binary64.

Lemma fold_add_nonnan (xs : list float) :
  forall acc : float,
    nonnan (Prim2SF acc) = true ->
    Forall (fun x => is_real x = true) xs ->
    nonnan (Prim2SF (fold_left (fun acc x => acc + x) xs acc)) = true.
Proof.
  induction xs as [|x xs IH]; intros acc Hacc Hxs; cbn; [assumption|].
  inversion Hxs as [|? ? Hx Hxs']; subst.
  apply IH; [|assumption].
  rewrite FloatAxioms.add_spec. now apply SFadd_real_nonnan.
Qed.

Lemma fold_add_signed (xs : list float) :
  forall acc : float,
    signed false (Prim2SF acc) = true ->
    Forall (fun x => signed false (Prim2SF x) = true) xs ->
    signed false (Prim2SF (fold_left (fun acc x => acc + x) xs acc)) = true.
Proof.
  induction xs as [|x xs IH]; intros acc Hacc Hxs; cbn; [assumption|].
  inversion Hxs as [|? ? Hx Hxs']; subst.
  apply IH; [|assumption].
  rewrite FloatAxioms.add_spec. now apply SFadd_signed.
Qed.

(** The variance of samples that are real numbers, taken over a count that
    converts to a positive finite [double], is never negative and never
    NaN. *)
Lemma variance_nonneg (dataArray : list float) (dataArraySize : nat) (m : positive) (e : Z) :
  Forall (fun x => is_real x = true) dataArray ->
  Prim2SF (double_of_size_t dataArraySize) = S754_finite false m e ->
  (0 <=? variance (calculateMeanAndVarianceOfDoubleSamples dataArray dataArraySize)) = true.
Proof.
  intros Hreal Hsize.
  rewrite FloatAxioms.leb_spec. change (Prim2SF 0) with (S754_zero false).
  apply SFleb_zero_signed.
  unfold calculateMeanAndVarianceOfDoubleSamples. cbn [variance].
  rewrite FloatAxioms.div_spec, Hsize. apply SFdiv_signed.
  set (mean := sumOfDoubles dataArray / double_of_size_t dataArraySize).
  assert (Hmean : nonnan (Prim2SF mean) = true).
  { subst mean. rewrite FloatAxioms.div_spec, Hsize. apply SFdiv_nonnan.
    now apply fold_add_nonnan. }
  apply fold_add_signed; [reflexivity|].
  apply Forall_map. eapply Forall_impl; [exact Hreal|].
  intros x Hx. cbn beta.
  rewrite FloatAxioms.mul_spec. apply SFmul_self_signed.
  rewrite FloatAxioms.sub_spec. now apply SFsub_real_nonnan.
Qed.

Lemma readDoubles_assigned (xs : list float) :
  readDoubles (Some <$> xs) (length xs) = Some xs.
Proof.
  induction xs as [|x xs IH]; cbn; [reflexivity|].
  change (map Some xs) with (Some <$> xs). now rewrite IH.
Qed.

End Reduction.

(** ** The calibration engine *)

Section Engine.

Variable pow : float -> float -> float.

Implicit Types (arguments : CommandLineArguments) (table : list (option float)).

(** One pass over a four-entry table, by selection: the returned scalar and
    the table it leaves. *)
Lemma calculateSensorOutput_cases arguments (Aout Vdd : float) (o0 o1 o2 o3 : option float) :
  calculateSensorOutput pow arguments [Aout; Vdd] [o0; o1; o2; o3] =
  match outputSelect (common arguments) with
  | 0 => (spec_variant pow 0 Aout Vdd, [spec_variant pow 0 Aout Vdd; o1; o2; o3])
  | 1 => (spec_variant pow 1 Aout Vdd, [o0; spec_variant pow 1 Aout Vdd; o2; o3])
  | 2 => (spec_variant pow 2 Aout Vdd, [o0; o1; spec_variant pow 2 Aout Vdd; o3])
  | 3 => (spec_variant pow 3 Aout Vdd, [o0; o1; o2; spec_variant pow 3 Aout Vdd])
  | 4 => (spec_variant pow 3 Aout Vdd,
          [spec_variant pow 0 Aout Vdd; spec_variant pow 1 Aout Vdd;
           spec_variant pow 2 Aout Vdd; spec_variant pow 3 Aout Vdd])
  | _ => (None, [o0; o1; o2; o3])
  end.
Proof.
  unfold calculateSensorOutput.
  destruct (outputSelect (common arguments)) as [|[|[|[|[|n]]]]]; reflexivity.
Qed.

Lemma table_of_length_4 table :
  length table = kOutputDistributionIndexCalibratedSensorOutputMax ->
  exists o0 o1 o2 o3, table = [o0; o1; o2; o3].
Proof.
  destruct table as [|o0 [|o1 [|o2 [|o3 [|o4 table]]]]]; try discriminate.
  intros _. now exists o0, o1, o2, o3.
Qed.

(** On a real number the specification's sign function is +1, -1 or 0 by
    the side of 0 its argument lies on. *)
Lemma stated_sign_unit (x : float) :
  is_real x = true -> stated_sign x = unit_sign x.
Proof.
  unfold is_real, stated_sign, unit_sign.
  rewrite FloatAxioms.eqb_spec, !FloatAxioms.ltb_spec.
  change (Prim2SF 0) with (S754_zero false).
  destruct (Prim2SF x) as [s | s | | s m e] eqn:Hx; try discriminate; intros _.
  - now destruct s.
  - replace (SFeqb (S754_finite s m e) (S754_zero false)) with false by now destruct s.
    replace (x / abs x) with (if s then -1 else 1).
    + now destruct s.
    + apply Prim2SF_inj.
      rewrite FloatAxioms.div_spec, FloatAxioms.abs_spec, Hx, SFdiv_abs_self.
      now destruct s.
Qed.

(** With a [pow] that is exact at exponent 2, what the code computes for a
    variant is the formula as stated, with the specification's sign. *)
Lemma spec_variant_stated (index : nat) (Aout Vdd : float) :
  (forall x, pow x 2 = x * x) ->
  spec_variant pow index Aout Vdd = stated_variant stated_sign index Aout Vdd.
Proof.
  intros Hpow.
  destruct index as [|[|[|[|index]]]]; cbn [spec_variant stated_variant]; try reflexivity.
  all: unfold spec_Sqrt500Pa, spec_Sqrt125Pa; rewrite Hpow; reflexivity.
Qed.

(** C4. With a [pow] that is exact at exponent 2 and Vdd not 0, every
    variant that a pass computes is stored in its entry of the output table
    with the value of the stated formula: 750*Aout/Vdd - 150,
    190*Aout/Vdd - 38, and s * (Aout/(Vdd*0.4) - 1.25)^2 times 525 or 133,
    where s is the specification's sign of Aout/Vdd - 0.5 (0 at 0, else
    x/|x|); and whenever Aout/Vdd - 0.5 is a real number, s is +1 above
    0, -1 below 0 and 0 at 0. *)
Theorem calculateSensorOutput_formulas arguments (Aout Vdd : float) table (index : nat) :
  (forall x, pow x 2 = x * x) ->
  (Vdd =? 0) = false ->
  length table = kOutputDistributionIndexCalibratedSensorOutputMax ->
  computed arguments index ->
  let entry := (calculateSensorOutput pow arguments [Aout; Vdd] table).2 !! index in
  entry = Some (stated_variant stated_sign index Aout Vdd) /\
  is_Some (stated_variant stated_sign index Aout Vdd) /\
  (is_real (Aout / Vdd - 0.5) = true ->
   entry = Some (stated_variant unit_sign index Aout Vdd)).
Proof.
  intros Hpow _ Hlen [Hindex Hsel] entry.
  assert (Hentry : entry = Some (stated_variant stated_sign index Aout Vdd)).
  { subst entry. rewrite <- (spec_variant_stated index Aout Vdd Hpow).
    destruct (table_of_length_4 table Hlen) as (o0 & o1 & o2 & o3 & ->).
    rewrite calculateSensorOutput_cases.
    unfold kOutputDistributionIndexCalibratedSensorOutputMax in *.
    destruct Hsel as [-> | ->];
      destruct index as [|[|[|[|index]]]]; try lia; reflexivity. }
  split; [exact Hentry|]. split.
  - unfold kOutputDistributionIndexCalibratedSensorOutputMax in *.
    destruct index as [|[|[|[|index]]]]; try lia; eauto.
  - intros Hreal. rewrite Hentry. f_equal.
    destruct index as [|[|[|[|index]]]]; cbn [stated_variant]; try reflexivity.
    all: rewrite (stated_sign_unit _ Hreal); reflexivity.
Qed.

(** With a [pow] that is exact at exponent 2, the square of the square-root
    curves is the rounded product. *)
Lemma spec_Sqrt_exact_square (Aout Vdd : float) :
  (forall x, pow x 2 = x * x) ->
  let t := Aout / (Vdd * kSensorCalibrationConstantSDP8x6Sqrt500Pa2)
           - kSensorCalibrationConstantSDP8x6Sqrt500Pa3 in
  spec_Sqrt500Pa pow Aout Vdd = sign (Aout / Vdd - 0.5) * (t * t) * 525 /\
  spec_Sqrt125Pa pow Aout Vdd = sign (Aout / Vdd - 0.5) * (t * t) * 133.
Proof.
  intros Hpow t. unfold spec_Sqrt500Pa, spec_Sqrt125Pa.
  rewrite Hpow. split; reflexivity.
Qed.

Lemma spec_variant_is_Some (index : nat) (Aout Vdd : float) :
  index < kOutputDistributionIndexCalibratedSensorOutputMax ->
  is_Some (spec_variant pow index Aout Vdd).
Proof.
  unfold kOutputDistributionIndexCalibratedSensorOutputMax.
  destruct index as [|[|[|[|index]]]]; try lia; intros _; eexists; reflexivity.
Qed.

(** C7. With the selection "all", one pass assigns all four entries of the
    output table; with a single variant selected it assigns that variant's
    entry, and every other entry is what it was before the pass. *)
Theorem calculateSensorOutput_writes arguments (Aout Vdd : float) table :
  length table = kOutputDistributionIndexCalibratedSensorOutputMax ->
  let table' := (calculateSensorOutput pow arguments [Aout; Vdd] table).2 in
  (outputSelect (common arguments) = kOutputDistributionIndexCalibratedSensorOutputMax ->
   forall index, index < kOutputDistributionIndexCalibratedSensorOutputMax ->
     table' !! index = Some (spec_variant pow index Aout Vdd) /\
     is_Some (spec_variant pow index Aout Vdd)) /\
  (outputSelect (common arguments) < kOutputDistributionIndexCalibratedSensorOutputMax ->
   table' !! outputSelect (common arguments)
     = Some (spec_variant pow (outputSelect (common arguments)) Aout Vdd) /\
   is_Some (spec_variant pow (outputSelect (common arguments)) Aout Vdd) /\
   forall index, index <> outputSelect (common arguments) ->
     table' !! index = table !! index).
Proof.
  intros Hlen table'. subst table'.
  destruct (table_of_length_4 table Hlen) as (o0 & o1 & o2 & o3 & ->).
  rewrite calculateSensorOutput_cases.
  unfold kOutputDistributionIndexCalibratedSensorOutputMax in *.
  split.
  - intros -> index Hindex. split; [|now apply spec_variant_is_Some].
    destruct index as [|[|[|[|index]]]]; try lia; reflexivity.
  - intros Hsel.
    destruct (outputSelect (common arguments)) as [|[|[|[|sel]]]]; try lia.
    all: split; [reflexivity|].
    all: split; [now apply spec_variant_is_Some|].
    all: intros [|[|[|[|index]]]] Hne; try reflexivity; congruence.
Qed.

End Engine.

(** ** The midpoint inputs *)

Section Midpoint.

Variable pow : float -> float -> float.

Lemma within_by_computation (x : float) (q v tolerance : Q) :
  double_to_Q x = Some q ->
  Qle_bool (Qabs (q - v)) tolerance = true ->
  entryWithin (Some (Some x)) v tolerance.
Proof.
  intros Hq Hle. exists x, q. repeat split; auto. now apply Qle_bool_iff.
Qed.

(** C3, as the code has it. At Aout = 1.5 and Vdd = 3.7 a pass that
    computes Linear500Pa stores 154.054054... (5700/37) and a pass that
    computes Linear125Pa stores 39.027027... (1444/37), each to within
    1e-9. *)
Theorem midpoint_linear_outputs (arguments : CommandLineArguments)
    (table : list (option float)) :
  length table = kOutputDistributionIndexCalibratedSensorOutputMax ->
  let table' := (calculateSensorOutput pow arguments midpointInputs table).2 in
  (computed arguments kOutputDistributionIndexCalibratedSensorOutputSDP8x6Linear500Pa ->
   entryWithin (table' !! kOutputDistributionIndexCalibratedSensorOutputSDP8x6Linear500Pa)
     (5700 # 37) (1 # 1000000000)) /\
  (computed arguments kOutputDistributionIndexCalibratedSensorOutputSDP8x6Linear125Pa ->
   entryWithin (table' !! kOutputDistributionIndexCalibratedSensorOutputSDP8x6Linear125Pa)
     (1444 # 37) (1 # 1000000000)).
Proof.
  intros Hlen table'. subst table'.
  destruct (table_of_length_4 table Hlen) as (o0 & o1 & o2 & o3 & ->).
  unfold midpointInputs. rewrite calculateSensorOutput_cases.
  unfold computed, kOutputDistributionIndexCalibratedSensorOutputMax,
    kOutputDistributionIndexCalibratedSensorOutputSDP8x6Linear500Pa,
    kOutputDistributionIndexCalibratedSensorOutputSDP8x6Linear125Pa.
  split; intros [_ [-> | ->]]; cbn [lookup list_lookup spec_variant];
    (eapply within_by_computation; [vm_compute; reflexivity | vm_compute; reflexivity]).
Qed.

End Midpoint.

(** C3, as stated, fails: with all four variants computed at Aout = 1.5 and
    Vdd = 3.7, the Linear500Pa entry is not within 1e-9 of any number that
    starts -46.62162, and the Linear125Pa entry is not within 1e-9 of any
    number that starts 39.97297. *)
Lemma midpoint_outputs_are_not_the_stated_ones :
  let table' :=
    (calculateSensorOutput pow_square (exampleArguments 4 false 1 false false false false)
       midpointInputs (replicate 4 None)).2 in
  ~ (exists v500 : Q,
       (-4662163 # 100000 <= v500 <= -4662162 # 100000)%Q /\
       entryWithin (table' !! 0%nat) v500 (1 # 1000000000)) /\
  ~ (exists v125 : Q,
       (3997297 # 100000 <= v125 <= 3997298 # 100000)%Q /\
       entryWithin (table' !! 1%nat) v125 (1 # 1000000000)).
Proof.
  cbv zeta. split.
  - intros (v500 & [_ Hv500] & (x & q & Hx & Hq & Hclose)).
    vm_compute in Hx. injection Hx as <-.
    vm_compute in Hq. injection Hq as <-.
    apply Qabs_Qle_condition in Hclose. destruct Hclose as [_ Hhigh].
    unfold Qle, Qminus, Qplus, Qopp in *. destruct v500 as [a b]. cbn in *. lia.
  - intros (v125 & [Hv125 _] & (x & q & Hx & Hq & Hclose)).
    vm_compute in Hx. injection Hx as <-.
    vm_compute in Hq. injection Hq as <-.
    apply Qabs_Qle_condition in Hclose. destruct Hclose as [Hlow _].
    unfold Qle, Qminus, Qplus, Qopp in *. destruct v125 as [a b]. cbn in *. lia.
Qed.

Lemma midpoint_linear_outputs_witness :
  let table' :=
    (calculateSensorOutput pow_square (exampleArguments 4 false 1 false false false false)
       midpointInputs (replicate 4 None)).2 in
  entryWithin (table' !! 0%nat) (5700 # 37) (1 # 1000000000) /\
  entryWithin (table' !! 1%nat) (1444 # 37) (1 # 1000000000).
Proof.
  cbv zeta.
  destruct (midpoint_linear_outputs pow_square
              (exampleArguments 4 false 1 false false false false)
              (replicate 4 None) eq_refl) as [H500 H125].
  split.
  - apply H500. split; [repeat constructor | left; reflexivity].
  - apply H125. split; [repeat constructor | left; reflexivity].
Defined.

(** ** The run of [main] up to the reporting block *)

Section Run.

Variable pow : float -> float -> float.
Variable CLOCKS_PER_SEC : Z.
Variable PRIu64 : string.
Variable kCommonConstantReturnTypeError : Z.

Implicit Types (w : World) (arguments : CommandLineArguments) (s : locals).

Lemma setInputDistributionsViaUxHwCall_drawn w (i : nat) (inputs : list float) :
  length inputs = kInputDistributionIndexMax ->
  setInputDistributionsViaUxHwCall (UxHwDoubleUniformDist w) (2 * i) inputs = drawn w i.
Proof.
  destruct inputs as [|a [|v [|x inputs]]]; try discriminate.
  reflexivity.
Qed.

Lemma calculateSensorOutput_tracked arguments w (i : nat) table :
  length table = kOutputDistributionIndexCalibratedSensorOutputMax ->
  (calculateSensorOutput pow arguments (drawn w i) table).1 = tracked pow arguments w i
  /\ length (calculateSensorOutput pow arguments (drawn w i) table).2
     = kOutputDistributionIndexCalibratedSensorOutputMax.
Proof.
  intros Hlen.
  destruct (table_of_length_4 table Hlen) as (o0 & o1 & o2 & o3 & ->).
  unfold tracked, drawn. cbn [replicate kOutputDistributionIndexCalibratedSensorOutputMax].
  rewrite !calculateSensorOutput_cases.
  destruct (outputSelect (common arguments)) as [|[|[|[|[|n]]]]]; split; reflexivity.
Qed.

Lemma iteration_fields w arguments (i : nat) s :
  sized s ->
  let s' := iteration pow w arguments i s in
  sized s' /\
  calibratedSensorOutput s' = tracked pow arguments w i /\
  monteCarloOutputSamples s' =
    (if isMonteCarloMode (common arguments)
     then (fun samples => <[ i := tracked pow arguments w i ]> samples)
            <$> monteCarloOutputSamples s
     else monteCarloOutputSamples s) /\
  trace s' = trace s /\ start s' = start s /\ end_ s' = end_ s /\
  cpuTimeUsedSeconds s' = cpuTimeUsedSeconds s /\
  meanAndVariance s' = meanAndVariance s.
Proof.
  intros [Hin Hout]. unfold iteration.
  rewrite (setInputDistributionsViaUxHwCall_drawn w i _ Hin).
  destruct (calculateSensorOutput_tracked arguments w i _ Hout) as [Hfst Hsnd].
  destruct (calculateSensorOutput pow arguments (drawn w i) (outputDistributions s))
    as [value table'].
  cbn in *. subst value. unfold sized. cbn. auto 10.
Qed.

Lemma samplingLoop_frame w arguments (count : nat) :
  forall (first : nat) s,
    sized s ->
    let s' := samplingLoop pow w arguments first count s in
    sized s' /\
    trace s' = trace s /\ start s' = start s /\ end_ s' = end_ s /\
    cpuTimeUsedSeconds s' = cpuTimeUsedSeconds s /\
    meanAndVariance s' = meanAndVariance s.
Proof.
  induction count as [|count IH]; intros first s Hs; cbn.
  - auto 10.
  - destruct (iteration_fields w arguments first s Hs)
      as (Hs' & _ & _ & Ht & Hst & He & Hc & Hm).
    destruct (IH (S first) _ Hs') as (? & ? & ? & ? & ? & ?).
    repeat split; try apply H; congruence.
Qed.

(** The sample buffer after the loop has run over [first .. first+count-1]:
    those entries hold the scalar of their iteration, the others are
    untouched. *)
Lemma samplingLoop_samples w arguments (count : nat) :
  forall (first : nat) s (buffer : list (option float)),
    sized s ->
    isMonteCarloMode (common arguments) = true ->
    monteCarloOutputSamples s = Some buffer ->
    exists buffer',
      monteCarloOutputSamples (samplingLoop pow w arguments first count s) = Some buffer' /\
      length buffer' = length buffer /\
      forall i,
        buffer' !! i =
          if bool_decide (first <= i < first + count /\ i < length buffer)
          then Some (tracked pow arguments w i)
          else buffer !! i.
Proof.
  induction count as [|count IH]; intros first s buffer Hs Hmc Hbuf; cbn.
  - exists buffer. repeat split; auto.
    intros i. case_bool_decide; [lia | reflexivity].
  - destruct (iteration_fields w arguments first s Hs) as (Hs' & _ & Hsamples & _).
    rewrite Hmc, Hbuf in Hsamples. cbn in Hsamples.
    destruct (IH (S first) _ _ Hs' Hmc Hsamples) as (buffer' & Hb' & Hlen & Hget).
    exists buffer'. rewrite length_insert in Hlen.
    repeat split; auto.
    intros i. rewrite Hget, length_insert.
    destruct (decide (i = first)) as [-> | Hne].
    + repeat case_bool_decide; try lia.
      * apply list_lookup_insert_eq. lia.
      * rewrite list_insert_ge by lia. reflexivity.
    + rewrite list_lookup_insert_ne by congruence.
      repeat case_bool_decide; try lia; reflexivity.
Qed.

Lemma initialLocals_sized w : sized (initialLocals w).
Proof. split; reflexivity. Qed.

(** The allocation block when it does not end the run. *)
Lemma allocateSamples_fields w arguments s :
  (isMonteCarloMode (common arguments) = true -> checkedMalloc w = true) ->
  let bytes :=
    size_t_mul (Z.of_nat (numberOfMonteCarloIterations (common arguments)))
               sizeof_double in
  let s' := (allocateSamples w arguments s).1 in
  (allocateSamples w arguments s).2 = None /\
  (sized s -> sized s') /\
  trace s' =
    trace s ++ (if isMonteCarloMode (common arguments)
                then [EvCheckedMalloc (Z.to_nat bytes)] else []) /\
  monteCarloOutputSamples s' =
    (if isMonteCarloMode (common arguments)
     then Some (replicate (Z.to_nat (bytes / sizeof_double)) None)
     else monteCarloOutputSamples s) /\
  cpuTimeUsedSeconds s' = cpuTimeUsedSeconds s /\
  start s' = start s.
Proof.
  intros Hmalloc. unfold allocateSamples.
  destruct (isMonteCarloMode (common arguments)); cbn.
  - rewrite Hmalloc by reflexivity. cbn. auto 10.
  - rewrite app_nil_r. auto 10.
Qed.

(** The locals when [main] reaches its reporting block, from the locals
    [s] with which the timing block starts. *)
Lemma beforeReport_fields w arguments s :
  sized s ->
  let looped :=
    samplingLoop pow w arguments 0 (numberOfMonteCarloIterations (common arguments))
      (startTiming w arguments s) in
  let s' := beforeReport pow CLOCKS_PER_SEC w arguments s in
  trace s' =
    trace s
    ++ (if timed arguments then [EvClock (clock w 0)] else [])
    ++ (if isMonteCarloMode (common arguments)
        then [EvCalculateMeanAndVarianceOfDoubleSamples
                (monteCarloOutputSamples looped)
                (numberOfMonteCarloIterations (common arguments))]
        else [])
    ++ (if timed arguments then [EvClock (clock w 1)] else []) /\
  cpuTimeUsedSeconds s' =
    (if timed arguments
     then Some (double_of_Z (clock w 1 - clock w 0) / double_of_Z CLOCKS_PER_SEC)
     else cpuTimeUsedSeconds s) /\
  monteCarloOutputSamples s' = monteCarloOutputSamples looped /\
  (isMonteCarloMode (common arguments) = true ->
   meanAndVariance s' =
     (samples ← monteCarloOutputSamples looped;
      dataArray ← readDoubles samples (numberOfMonteCarloIterations (common arguments));
      Some (calculateMeanAndVarianceOfDoubleSamples dataArray
              (numberOfMonteCarloIterations (common arguments)))) /\
   calibratedSensorOutput s' = mean <$> meanAndVariance s').
Proof.
  intros Hs looped s'. subst s'. unfold beforeReport. fold looped.
  assert (Hstart : sized (startTiming w arguments s) /\
                   trace (startTiming w arguments s)
                   = trace s ++ (if timed arguments then [EvClock (clock w 0)] else []) /\
                   start (startTiming w arguments s)
                   = (if timed arguments then Some (clock w 0) else start s) /\
                   cpuTimeUsedSeconds (startTiming w arguments s) = cpuTimeUsedSeconds s).
  { unfold startTiming, timed.
    destruct (isTimingEnabled (common arguments) || isBenchmarkingMode (common arguments));
      cbn; rewrite ?app_nil_r; auto. }
  destruct Hstart as (Hsized & Htrace & Hst & Hcpu).
  destruct (samplingLoop_frame w arguments
              (numberOfMonteCarloIterations (common arguments)) 0 _ Hsized)
    as (_ & Hltrace & Hlstart & _ & Hlcpu & _).
  fold looped in Hltrace, Hlstart, Hlcpu.
  unfold stopTiming, reduceSamples. fold (timed arguments).
  destruct (timed arguments), (isMonteCarloMode (common arguments)); cbn;
    rewrite ?Hltrace, ?Hlstart, ?Hlcpu, ?Htrace, ?Hst, ?Hcpu, ?app_nil_r, <- ?app_assoc;
    cbn; repeat split; auto; discriminate.
Qed.

(** [main] once the arguments are parsed and the buffer, if any, is
    obtained. *)
Lemma main_after_allocation w arguments :
  getCommandLineArguments w = Some arguments ->
  (isMonteCarloMode (common arguments) = true -> checkedMalloc w = true) ->
  main pow CLOCKS_PER_SEC PRIu64 kCommonConstantReturnTypeError w =
    let s := beforeReport pow CLOCKS_PER_SEC w arguments
               (allocateSamples w arguments (initialLocals w)).1 in
    match report PRIu64 kCommonConstantReturnTypeError w arguments s with
    | (s, Some o) => (o, s)
    | (s, None) => (Returned 0, saveAndFree arguments s)
    end.
Proof.
  intros Hargs Hmalloc. unfold main. rewrite Hargs.
  destruct (allocateSamples_fields w arguments (initialLocals w) Hmalloc) as (Hnone & _).
  destruct (allocateSamples w arguments (initialLocals w)) as [s o].
  cbn in Hnone. now subst o.
Qed.

(** C9. With the benchmarking flag set, whatever the selection, the only
    reporting call of the run is one [printf] of the format
    ["%lf %" PRIu64 "\n"], with the calibrated value and the measured CPU
    seconds times one million truncated to a 64-bit unsigned integer; no
    plain-text, JSON or CSV reporting takes place, and [main] returns 0. *)
Theorem benchmark_reports_one_line w arguments :
  getCommandLineArguments w = Some arguments ->
  (isMonteCarloMode (common arguments) = true -> checkedMalloc w = true) ->
  isBenchmarkingMode (common arguments) = true ->
  let run := main pow CLOCKS_PER_SEC PRIu64 kCommonConstantReturnTypeError w in
  let seconds := double_of_Z (clock w 1 - clock w 0) / double_of_Z CLOCKS_PER_SEC in
  run.1 = Returned 0 /\
  filter (fun e => isReport e = true) (trace run.2) =
    [ EvPrintf ("%lf %" +:+ PRIu64 +:+ newline)
        [ ArgDouble (calibratedSensorOutput run.2);
          ArgUint64 (uint64_of_double (seconds * 1000000)) ] ] /\
  (forall z, uint64_of_double (seconds * 1000000) = Some z ->
     (0 <= z < 2 ^ 64)%Z /\
     exists q, double_to_Q (seconds * 1000000) = Some q /\
               (inject_Z z <= Qabs q)%Q /\ (Qabs q < inject_Z z + 1)%Q).
Proof.
  intros Hargs Hmalloc Hbench run seconds. subst run.
  rewrite (main_after_allocation w arguments Hargs Hmalloc). cbv zeta.
  destruct (allocateSamples_fields w arguments (initialLocals w) Hmalloc)
    as (_ & Hsized & Htrace & _).
  specialize (Hsized (initialLocals_sized w)).
  destruct (beforeReport_fields w arguments _ Hsized) as (Hbtrace & Hbcpu & _).
  cbv zeta in Hbtrace, Hbcpu.
  set (s := beforeReport pow CLOCKS_PER_SEC w arguments _) in *.
  assert (Htimed : timed arguments = true).
  { unfold timed. rewrite Hbench. apply orb_true_r. }
  rewrite Htimed in Hbtrace, Hbcpu.
  unfold report. rewrite Hbench.
  unfold saveAndFree, microseconds.
  split; [|split].
  - destruct (isMonteCarloMode (common arguments)); reflexivity.
  - destruct (isMonteCarloMode (common arguments)); cbn;
      rewrite Hbtrace, Htrace, Hbcpu; cbn; rewrite ?filter_app; cbn; reflexivity.
  - intros z. apply Binary64.uint64_of_double_truncates.
Qed.


(** In Monte Carlo mode the auxiliary data file is written and the
    buffer freed exactly on the runs that return 0, after the reduction;
    the elapsed time handed to the writer is the measured one when the run
    was timed, and otherwise the never-assigned [cpuTimeUsedSeconds]. *)
Lemma monte_carlo_save_and_free w arguments :
  getCommandLineArguments w = Some arguments ->
  checkedMalloc w = true ->
  isMonteCarloMode (common arguments) = true ->
  let run := main pow CLOCKS_PER_SEC PRIu64 kCommonConstantReturnTypeError w in
  let seconds := double_of_Z (clock w 1 - clock w 0) / double_of_Z CLOCKS_PER_SEC in
  let failed :=
    negb (isBenchmarkingMode (common arguments)) &&
    isWriteToFileEnabled (common arguments) &&
    negb (writeOutputDoubleDistributionsToCSV w =? 0)%Z in
  run.1 = (if failed then Returned kCommonConstantReturnTypeError else Returned 0) /\
  existsb isReduction (trace run.2) = true /\
  existsb isSave (trace run.2) = negb failed /\
  existsb isFree (trace run.2) = negb failed /\
  savedMicroseconds (trace run.2) =
    (if failed then []
     else [if timed arguments then uint64_of_double (seconds * 1000000) else None]).
Proof.
  intros Hargs Hmalloc Hmc run seconds failed. subst run seconds failed.
  rewrite (main_after_allocation w arguments Hargs (fun _ => Hmalloc)).
  destruct (allocateSamples_fields w arguments (initialLocals w) (fun _ => Hmalloc))
    as (_ & Hsized & Htrace & _ & Hcpu & _).
  specialize (Hsized (initialLocals_sized w)).
  destruct (beforeReport_fields w arguments _ Hsized) as (Hbtrace & Hbcpu & _).
  cbv zeta in *. rewrite Htrace in Hbtrace. rewrite Hcpu in Hbcpu. clear Htrace Hsized Hcpu.
  set (s := beforeReport pow CLOCKS_PER_SEC w arguments _) in *.
  clearbody s.
  unfold report, saveAndFree, printAllOutputs, microseconds, timed in *.
  destruct (writeOutputDoubleDistributionsToCSV w =? 0)%Z.
  all: destruct arguments as [[select mc n timing bench json write path]]; cbn in *.
  all: subst mc.
  all: destruct bench, json, timing, write,
         (select =? kOutputDistributionIndexCalibratedSensorOutputMax)%nat.
  all: cbn in *; rewrite ?Hbtrace, ?Hbcpu; cbn.
  all: unfold savedMicroseconds; rewrite ?existsb_app, ?flat_map_app; cbn.
  all: repeat split; reflexivity.
Qed.

End Run.



(** C2, at a failing input: a Monte Carlo run that writes the CSV file and
    whose write fails returns the error code after the sampling loop and the
    reduction, without writing the auxiliary data file and without freeing
    the sample buffer it still holds. *)
Lemma csv_failure_skips_save_and_free :
  let arguments := exampleArguments 4 true 3 false false false true in
  let run := run_main (exampleWorld arguments 1) in
  run.1 = Returned 1 /\
  existsb isReduction (trace run.2) = true /\
  existsb isSave (trace run.2) = false /\
  existsb isFree (trace run.2) = false /\
  is_Some (monteCarloOutputSamples run.2).
Proof.
  cbv zeta. repeat split; try (vm_compute; reflexivity).
  vm_compute. eexists. reflexivity.
Qed.

(** C10, at a failing input: a Monte Carlo run with the timing and the
    benchmarking flags both off never calls [clock] and never assigns
    [cpuTimeUsedSeconds], and still reads it when it writes the auxiliary
    data file. *)
Lemma untimed_monte_carlo_saves_unassigned_time :
  let arguments := exampleArguments 4 true 3 false false false false in
  let run := run_main (exampleWorld arguments 0) in
  run.1 = Returned 0 /\
  existsb isClock (trace run.2) = false /\
  cpuTimeUsedSeconds run.2 = None /\
  savedMicroseconds (trace run.2) = [None].
Proof.
  cbv zeta. repeat split; vm_compute; reflexivity.
Qed.

(** ** The samples [main] collects and what it makes of them *)

Section Samples.

Variable pow : float -> float -> float.
Variable CLOCKS_PER_SEC : Z.
Variable PRIu64 : string.
Variable kCommonConstantReturnTypeError : Z.

Implicit Types (w : World) (arguments : CommandLineArguments) (s : locals).

(** The reporting and closing blocks leave the samples, the calibrated
    output and the reduction alone, and add no reduction to the trace. *)
Lemma main_keeps_results w arguments :
  getCommandLineArguments w = Some arguments ->
  (isMonteCarloMode (common arguments) = true -> checkedMalloc w = true) ->
  let s := beforeReport pow CLOCKS_PER_SEC w arguments
             (allocateSamples w arguments (initialLocals w)).1 in
  let run := main pow CLOCKS_PER_SEC PRIu64 kCommonConstantReturnTypeError w in
  monteCarloOutputSamples run.2 = monteCarloOutputSamples s /\
  calibratedSensorOutput run.2 = calibratedSensorOutput s /\
  meanAndVariance run.2 = meanAndVariance s /\
  existsb isReduction (trace run.2) = isMonteCarloMode (common arguments).
Proof.
  intros Hargs Hmalloc s run. subst run.
  rewrite (main_after_allocation pow CLOCKS_PER_SEC PRIu64
             kCommonConstantReturnTypeError w arguments Hargs Hmalloc).
  destruct (allocateSamples_fields w arguments (initialLocals w) Hmalloc)
    as (_ & Hsized & Htrace & _).
  specialize (Hsized (initialLocals_sized w)).
  destruct (beforeReport_fields pow CLOCKS_PER_SEC w arguments _ Hsized) as (Hbtrace & _).
  cbv zeta in *. rewrite Htrace in Hbtrace. clear Htrace Hsized.
  fold s in Hbtrace |- *. clearbody s.
  unfold report, saveAndFree, printAllOutputs, timed in *.
  destruct (writeOutputDoubleDistributionsToCSV w =? 0)%Z.
  all: destruct arguments as [[select mc n timing bench json write path]]; cbn in *.
  all: destruct bench, json, timing, write, mc,
         (select =? kOutputDistributionIndexCalibratedSensorOutputMax)%nat.
  all: cbn in *; rewrite ?Hbtrace; cbn; rewrite ?existsb_app; cbn.
  all: repeat split; reflexivity.
Qed.

(** In Monte Carlo mode, when the allocation request does not wrap, the
    buffer holds after the loop the scalar of each iteration. *)
Lemma collected_samples w arguments :
  checkedMalloc w = true ->
  isMonteCarloMode (common arguments) = true ->
  (Z.of_nat (numberOfMonteCarloIterations (common arguments)) * sizeof_double < 2 ^ 64)%Z ->
  let s := beforeReport pow CLOCKS_PER_SEC w arguments
             (allocateSamples w arguments (initialLocals w)).1 in
  exists buffer,
    monteCarloOutputSamples s = Some buffer /\
    length buffer = numberOfMonteCarloIterations (common arguments) /\
    forall i, i < numberOfMonteCarloIterations (common arguments) ->
      buffer !! i = Some (tracked pow arguments w i).
Proof.
  intros Hmalloc Hmc Hwrap s. subst s.
  destruct (allocateSamples_fields w arguments (initialLocals w) (fun _ => Hmalloc))
    as (_ & Hsized & _ & Hbuf & _).
  specialize (Hsized (initialLocals_sized w)).
  destruct (beforeReport_fields pow CLOCKS_PER_SEC w arguments _ Hsized)
    as (_ & _ & Hsamples & _).
  cbv zeta in *. rewrite Hsamples. rewrite Hmc in Hbuf.
  set (s0 := (allocateSamples w arguments (initialLocals w)).1) in *.
  assert (Hstart : sized (startTiming w arguments s0) /\
                   monteCarloOutputSamples (startTiming w arguments s0)
                   = monteCarloOutputSamples s0).
  { unfold startTiming.
    destruct (isTimingEnabled (common arguments) || isBenchmarkingMode (common arguments));
      split; auto. }
  destruct Hstart as [Hsized' Hbuf']. rewrite Hbuf in Hbuf'.
  destruct (samplingLoop_samples pow w arguments
              (numberOfMonteCarloIterations (common arguments)) 0 _ _ Hsized' Hmc Hbuf')
    as (buffer & Hloop & Hlen & Hget).
  rewrite length_replicate in Hlen, Hget.
  assert (Hn : Z.to_nat
                 (size_t_mul (Z.of_nat (numberOfMonteCarloIterations (common arguments)))
                    sizeof_double / sizeof_double)
               = numberOfMonteCarloIterations (common arguments)).
  { unfold size_t_mul. rewrite Z.mod_small by (unfold sizeof_double in *; lia).
    unfold sizeof_double. rewrite Z.div_mul by discriminate. apply Nat2Z.id. }
  rewrite Hn in Hlen, Hget.
  exists buffer. repeat split; auto.
  intros i Hi. rewrite Hget. case_bool_decide; [reflexivity | lia].
Qed.

Lemma tracked_is_Some arguments w (i : nat) :
  outputSelect (common arguments) <= kOutputDistributionIndexCalibratedSensorOutputMax ->
  is_Some (tracked pow arguments w i).
Proof.
  unfold tracked, drawn, kOutputDistributionIndexCalibratedSensorOutputMax. cbn [replicate].
  rewrite calculateSensorOutput_cases.
  destruct (outputSelect (common arguments)) as [|[|[|[|[|n]]]]]; try lia;
    intros _; eexists; reflexivity.
Qed.

(** C6. With the selection "all", the scalar that the calibration engine
    returns is the value of the last variant it computes, Sqrt125Pa, which
    is also what it stored in that variant's table entry; and in Monte
    Carlo mode the sample that [main] records in each iteration is the
    scalar the engine returned in that iteration. *)
Theorem tracked_scalar_is_last_variant w arguments :
  outputSelect (common arguments) = kOutputDistributionIndexCalibratedSensorOutputMax ->
  (forall (Aout Vdd : float) (table : list (option float)),
     length table = kOutputDistributionIndexCalibratedSensorOutputMax ->
     let pass := calculateSensorOutput pow arguments [Aout; Vdd] table in
     pass.1 = Some (spec_Sqrt125Pa pow Aout Vdd) /\
     pass.2 !! kOutputDistributionIndexCalibratedSensorOutputSDP8x6Sqrt125Pa = Some pass.1) /\
  (getCommandLineArguments w = Some arguments ->
   checkedMalloc w = true ->
   isMonteCarloMode (common arguments) = true ->
   (Z.of_nat (numberOfMonteCarloIterations (common arguments)) * sizeof_double < 2 ^ 64)%Z ->
   let run := main pow CLOCKS_PER_SEC PRIu64 kCommonConstantReturnTypeError w in
   exists buffer,
     monteCarloOutputSamples run.2 = Some buffer /\
     length buffer = numberOfMonteCarloIterations (common arguments) /\
     forall i, i < numberOfMonteCarloIterations (common arguments) ->
       (forall table : list (option float),
          length table = kOutputDistributionIndexCalibratedSensorOutputMax ->
          buffer !! i = Some (calculateSensorOutput pow arguments (drawn w i) table).1) /\
       buffer !! i =
         Some (Some (spec_Sqrt125Pa pow (drawn w i !!! kInputDistributionIndexAout)
                       (drawn w i !!! kInputDistributionIndexVdd)))).
Proof.
  intros Hall. split.
  - intros Aout Vdd table Hlen pass. subst pass.
    destruct (table_of_length_4 table Hlen) as (o0 & o1 & o2 & o3 & ->).
    rewrite calculateSensorOutput_cases, Hall. split; reflexivity.
  - intros Hargs Hmalloc Hmc Hwrap run. subst run.
    destruct (main_keeps_results w arguments Hargs (fun _ => Hmalloc)) as (Hkeep & _).
    destruct (collected_samples w arguments Hmalloc Hmc Hwrap)
      as (buffer & Hbuf & Hlen & Hget).
    cbv zeta in *. exists buffer. rewrite Hkeep.
    split; [assumption|]. split; [assumption|].
    intros i Hi. split.
    + intros table Htable. rewrite (Hget i Hi).
      now destruct (calculateSensorOutput_tracked pow arguments w i table Htable) as [-> _].
    + rewrite (Hget i Hi). unfold tracked, drawn.
      cbn [replicate kOutputDistributionIndexCalibratedSensorOutputMax].
      rewrite calculateSensorOutput_cases, Hall. reflexivity.
Qed.

Lemma buffer_of_samples arguments w (buffer : list (option float)) :
  outputSelect (common arguments) <= kOutputDistributionIndexCalibratedSensorOutputMax ->
  length buffer = numberOfMonteCarloIterations (common arguments) ->
  (forall i, i < numberOfMonteCarloIterations (common arguments) ->
     buffer !! i = Some (tracked pow arguments w i)) ->
  exists samples : list float,
    buffer = Some <$> samples /\
    length samples = numberOfMonteCarloIterations (common arguments).
Proof.
  intros Hsel Hlen Hget.
  exists ((fun i => default 0 (tracked pow arguments w i))
            <$> seq 0 (numberOfMonteCarloIterations (common arguments))).
  split; [|now rewrite length_fmap, length_seq].
  apply list_eq. intros i. rewrite !list_lookup_fmap.
  destruct (decide (i < numberOfMonteCarloIterations (common arguments))) as [Hi | Hi].
  - rewrite (Hget i Hi), lookup_seq_lt by assumption. cbn.
    now destruct (tracked_is_Some arguments w i Hsel) as [x ->].
  - rewrite lookup_seq_ge by lia. cbn. apply lookup_ge_None. lia.
Qed.

(** C8. The reduction to mean and variance is performed exactly in Monte
    Carlo mode. After it the calibrated output of the run is the mean of
    the reduction of the collected samples; that mean is their sum divided
    by their number; and, when there is at least one sample and the
    samples are real numbers, the variance is at least 0. *)
Theorem reduction_in_monte_carlo_mode w arguments :
  getCommandLineArguments w = Some arguments ->
  (isMonteCarloMode (common arguments) = true -> checkedMalloc w = true) ->
  let n := numberOfMonteCarloIterations (common arguments) in
  let run := main pow CLOCKS_PER_SEC PRIu64 kCommonConstantReturnTypeError w in
  (existsb isReduction (trace run.2) = true <->
   isMonteCarloMode (common arguments) = true) /\
  (isMonteCarloMode (common arguments) = true ->
   outputSelect (common arguments) <= kOutputDistributionIndexCalibratedSensorOutputMax ->
   (Z.of_nat n * sizeof_double < 2 ^ 64)%Z ->
   exists samples : list float,
     length samples = n /\
     monteCarloOutputSamples run.2 = Some (Some <$> samples) /\
     (forall i, i < n -> Some <$> samples !! i = Some (tracked pow arguments w i)) /\
     let reduced := calculateMeanAndVarianceOfDoubleSamples samples n in
     meanAndVariance run.2 = Some reduced /\
     calibratedSensorOutput run.2 = Some (mean reduced) /\
     mean reduced = sumOfDoubles samples / double_of_size_t n /\
     (1 <= n ->
      Forall (fun x => is_real x = true) samples ->
      (0 <=? variance reduced) = true)).
Proof.
  intros Hargs Hmalloc n run. subst run.
  destruct (main_keeps_results w arguments Hargs Hmalloc)
    as (Hsamples & Hcalibrated & Hmv & Hreduction).
  cbv zeta in *. split.
  - rewrite Hreduction. reflexivity.
  - intros Hmc Hsel Hwrap.
    destruct (collected_samples w arguments (Hmalloc Hmc) Hmc Hwrap)
      as (buffer & Hbuf & Hlen & Hget).
    destruct (buffer_of_samples arguments w buffer Hsel Hlen Hget)
      as (samples & -> & Hn).
    destruct (allocateSamples_fields w arguments (initialLocals w) Hmalloc)
      as (_ & Hsized & _).
    specialize (Hsized (initialLocals_sized w)).
    destruct (beforeReport_fields pow CLOCKS_PER_SEC w arguments _ Hsized)
      as (_ & _ & Hlooped & Hreduced).
    destruct (Hreduced Hmc) as [Hresult Hmean].
    cbv zeta in *. rewrite Hlooped in Hbuf. rewrite Hbuf in Hresult. cbn in Hresult.
    fold n in Hn, Hresult |- *.
    rewrite <- Hn in Hresult at 1. rewrite readDoubles_assigned in Hresult.
    cbn in Hresult.
    exists samples. rewrite Hsamples, Hcalibrated, Hmv, Hmean, Hresult, Hlooped, Hbuf.
    split; [assumption|]. split; [reflexivity|]. split.
    { intros i Hi. rewrite <- list_lookup_fmap. now apply Hget. }
    split; [reflexivity|]. split; [reflexivity|]. split; [reflexivity|].
    intros Hpos Hreal.
    destruct (Binary64.double_of_Z_positive (Z.of_nat n)
                ltac:(unfold sizeof_double in Hwrap; lia)) as (m & e & Hsize).
    now apply (variance_nonneg samples n m e).
Qed.

End Samples.

(** ** The theorems at concrete inputs *)

#[warnings="-inexact-float"]
Lemma calculateSensorOutput_formulas_witness :
  let entry :=
    (calculateSensorOutput pow_square (exampleArguments 2 false 1 false false false false)
       [1.5; 3.5] (replicate 4 None)).2 !! 2%nat in
  (forall x, pow_square x 2 = x * x) /\
  is_real (1.5 / 3.5 - 0.5) = true /\
  entry = Some (stated_variant stated_sign 2 1.5 3.5) /\
  entry = Some (stated_variant unit_sign 2 1.5 3.5) /\
  stated_variant unit_sign 2 1.5 3.5
    = Some (- ((1.5 / (3.5 * 0.4) - 1.25) * (1.5 / (3.5 * 0.4) - 1.25)) * 525).
Proof.
  intros entry.
  assert (Hcomputed : computed (exampleArguments 2 false 1 false false false false) 2).
  { split; [repeat constructor | right; reflexivity]. }
  destruct (calculateSensorOutput_formulas pow_square
              (exampleArguments 2 false 1 false false false false) 1.5 3.5
              (replicate 4 None) 2 (fun _ => eq_refl) eq_refl eq_refl Hcomputed)
    as (Hstated & _ & Hunit).
  split; [exact (fun _ => eq_refl)|].
  split; [exact eq_refl|].
  split; [exact Hstated|].
  split; [exact (Hunit eq_refl)|].
  exact eq_refl.
Defined.

Lemma calculateSensorOutput_writes_witness :
  let table := [Some 1; None; Some 3; None] in
  let table' :=
    (calculateSensorOutput pow_square (exampleArguments 1 false 1 false false false false)
       [1.5; 3.5] table).2 in
  table' !! 1%nat = Some (spec_variant pow_square 1 1.5 3.5) /\
  forall index, index <> 1%nat -> table' !! index = table !! index.
Proof.
  cbv zeta.
  destruct (calculateSensorOutput_writes pow_square
              (exampleArguments 1 false 1 false false false false) 1.5 3.5
              [Some 1; None; Some 3; None] eq_refl) as [_ Hone].
  destruct (Hone ltac:(repeat constructor)) as (Hentry & _ & Hframe).
  split; [exact Hentry | exact Hframe].
Defined.

Lemma tracked_scalar_is_last_variant_witness :
  let arguments := exampleArguments 4 true 3 false false false false in
  let w := exampleWorld arguments 0 in
  exists buffer,
    monteCarloOutputSamples (run_main w).2 = Some buffer /\
    length buffer = 3%nat /\
    forall i, i < 3 ->
      buffer !! i =
        Some (Some (spec_Sqrt125Pa pow_square (drawn w i !!! 0%nat) (drawn w i !!! 1%nat))).
Proof.
  cbv zeta.
  destruct (tracked_scalar_is_last_variant pow_square 1000000 "lu" 1
              (exampleWorld (exampleArguments 4 true 3 false false false false) 0)
              (exampleArguments 4 true 3 false false false false) eq_refl)
    as [_ Hmain].
  destruct (Hmain eq_refl eq_refl eq_refl eq_refl) as (buffer & Hbuf & Hlen & Hget).
  exists buffer. split; [exact Hbuf|]. split; [exact Hlen|].
  intros i Hi. exact (proj2 (Hget i Hi)).
Defined.

Lemma reduction_in_monte_carlo_mode_witness :
  let arguments := exampleArguments 4 true 3 false false false false in
  let run := run_main (exampleWorld arguments 0) in
  existsb isReduction (trace run.2) = true /\
  exists reduced,
    meanAndVariance run.2 = Some reduced /\
    calibratedSensorOutput run.2 = Some (mean reduced) /\
    (0 <=? variance reduced) = true.
Proof.
  cbv zeta.
  destruct (reduction_in_monte_carlo_mode pow_square 1000000 "lu" 1
              (exampleWorld (exampleArguments 4 true 3 false false false false) 0)
              (exampleArguments 4 true 3 false false false false)
              eq_refl (fun _ => eq_refl))
    as [Hiff Hmc].
  split; [apply Hiff; reflexivity|].
  destruct (Hmc eq_refl ltac:(repeat constructor) eq_refl)
    as (samples & Hlen & Hbuf & _ & Hmv & Hcal & _ & Hvar).
  exists (calculateMeanAndVarianceOfDoubleSamples samples 3).
  split; [exact Hmv|]. split; [exact Hcal|].
  apply Hvar; [repeat constructor |].
  vm_compute in Hbuf.
  destruct samples as [|a [|b [|c [|d samples]]]]; try discriminate Hlen.
  injection Hbuf as <- <- <-.
  repeat constructor.
Defined.

Lemma benchmark_reports_one_line_witness :
  let arguments := exampleArguments 2 true 2 false true true true in
  let run := run_main (exampleWorld arguments 1) in
  run.1 = Returned 0 /\
  filter (fun e => isReport e = true) (trace run.2) =
    [ EvPrintf ("%lf %lu" +:+ newline)
        [ ArgDouble (calibratedSensorOutput run.2); ArgUint64 (Some 1234%Z) ] ].
Proof.
  cbv zeta.
  destruct (benchmark_reports_one_line pow_square 1000000 "lu" 1
              (exampleWorld (exampleArguments 2 true 2 false true true true) 1)
              (exampleArguments 2 true 2 false true true true)
              eq_refl (fun _ => eq_refl) eq_refl) as (Hcode & Hline & _).
  split; [exact Hcode | exact Hline].
Defined.

(** * Further properties *)

(** ** More on the sign function *)

(** [sign] by the class of its argument. *)
Lemma sign_by_class (x : float) :
  sign x =
    match Prim2SF x with
    | S754_zero _ => 0
    | S754_finite s _ _ => if s then -1 else 1
    | S754_infinity _ | S754_nan => nan
    end.
Proof.
  unfold sign. rewrite FloatAxioms.eqb_spec.
  change (Prim2SF 0) with (S754_zero false).
  destruct (Prim2SF x) as [s | s | | s m e] eqn:Hx.
  - reflexivity.
  - replace (SFeqb (S754_infinity s) (S754_zero false)) with false by now destruct s.
    apply Prim2SF_inj.
    rewrite FloatAxioms.div_spec, FloatAxioms.abs_spec, Hx. reflexivity.
  - cbn. apply Prim2SF_inj.
    rewrite FloatAxioms.div_spec, FloatAxioms.abs_spec, Hx. reflexivity.
  - replace (SFeqb (S754_finite s m e) (S754_zero false)) with false by now destruct s.
    apply Prim2SF_inj.
    rewrite FloatAxioms.div_spec, FloatAxioms.abs_spec, Hx, SFdiv_abs_self.
    now destruct s.
Qed.

(** X1. [sign] returns a NaN exactly for the arguments that are not real
    numbers: the NaNs and the two infinities. *)
Theorem sign_nan_iff_not_real (x : float) :
  is_nan (sign x) = negb (is_real x).
Proof.
  rewrite sign_by_class. unfold is_real.
  destruct (Prim2SF x) as [s | s | | [|] m e]; reflexivity.
Qed.

(** X2. [sign] is odd on the real numbers: for every real argument that
    does not compare equal to 0 the sign of the negated argument is exactly
    the negated sign (and no NaN); at the two zeros both compare equal, and
    [sign] returns the same zero for both; for a NaN or an infinity both
    sides are NaNs. *)
Theorem sign_opp (x : float) :
  (is_real x = true -> (x =? 0) = false ->
     sign (- x) = - sign x /\ is_nan (sign (- x)) = false) /\
  ((x =? 0) = true ->
     (sign (- x) =? - sign x) = true /\ sign (- x) = sign x) /\
  (is_real x = false ->
     is_nan (sign (- x)) = true /\ is_nan (- sign x) = true).
Proof.
  unfold is_real.
  rewrite !sign_by_class, FloatAxioms.eqb_spec, FloatAxioms.opp_spec.
  change (Prim2SF 0) with (S754_zero false).
  destruct (Prim2SF x) as [[|] | [|] | | [|] m e]; cbn;
    (split; [|split]); intros; try discriminate; split; reflexivity.
Qed.

Lemma sign_opp_witness :
  sign (- 2.5) = - sign 2.5 /\ sign (- (-0.75)) = - sign (-0.75) /\
  (sign (- 0) =? - sign 0) = true /\
  is_nan (sign (- infinity)) = true /\ is_nan (- sign infinity) = true.
Proof.
  destruct (sign_opp 2.5) as [Hpos _].
  destruct (sign_opp (-0.75)) as [Hneg _].
  destruct (sign_opp 0) as (_ & Hzero & _).
  destruct (sign_opp infinity) as (_ & _ & Hinf).
  split; [exact (proj1 (Hpos eq_refl eq_refl))|].
  split; [exact (proj1 (Hneg eq_refl eq_refl))|].
  split; [exact (proj1 (Hzero eq_refl))|].
  exact (Hinf eq_refl).
Defined.

(** ** Special values in the calibration engine *)

Module Special.

Lemma eqb_zero_class (v : float) :
  (v =? 0) = true -> exists s, Prim2SF v = S754_zero s.
Proof.
  rewrite FloatAxioms.eqb_spec. change (Prim2SF 0) with (S754_zero false).
  destruct (Prim2SF v) as [s | [|] | | [|] m e]; try discriminate.
  intros _. now exists s.
Qed.

Lemma SFdiv_zero_special (a : spec_float) (s : bool) :
  special (SF64div a (S754_zero s)) = true.
Proof. now destruct a. Qed.

Lemma SFsub_special_real (x y : spec_float) :
  special x = true -> real y = true -> special (SF64sub x y) = true.
Proof. destruct x as [sx | sx | | sx mx ex], y as [sy | sy | | sy my ey]; try discriminate; reflexivity. Qed.

Lemma sign_special (d : float) :
  special (Prim2SF d) = true -> sign d = nan.
Proof.
  rewrite sign_by_class. now destruct (Prim2SF d).
Qed.

Lemma nan_mul (y : float) : nan * y = nan.
Proof. apply Prim2SF_inj. rewrite FloatAxioms.mul_spec. reflexivity. Qed.

Lemma is_nan_nonnan (t : float) : is_nan t = false -> nonnan (Prim2SF t) = true.
Proof.
  unfold is_nan. rewrite FloatAxioms.eqb_spec.
  now destruct (Prim2SF t).
Qed.

(** A product with a finite left factor carries the product of the signs. *)
Lemma SFmul_finite_signed (s : bool) (m : positive) (e : Z) (sy : bool) (y : spec_float) :
  signed sy y = true ->
  signed (xorb s sy) (SF64mul (S754_finite s m e) y) = true.
Proof.
  destruct y as [s' | s' | | s' m' e']; try discriminate; cbn [signed]; intros Hs;
    apply Bool.eqb_prop in Hs; subst s'.
  - cbn. apply Bool.eqb_reflx.
  - cbn. apply Bool.eqb_reflx.
  - unfold SF64mul, SFmul. now apply Binary64.binary_round_aux_signed.
Qed.

(** So does a product with a finite right factor. *)
Lemma SFmul_signed_finite (sx : bool) (x : spec_float) (m : positive) (e : Z) :
  signed sx x = true ->
  signed sx (SF64mul x (S754_finite false m e)) = true.
Proof.
  destruct x as [s' | s' | | s' m' e']; try discriminate; cbn [signed]; intros Hs;
    apply Bool.eqb_prop in Hs; subst s'.
  - cbn. rewrite xorb_false_r. apply Bool.eqb_reflx.
  - cbn. rewrite xorb_false_r. apply Bool.eqb_reflx.
  - unfold SF64mul, SFmul. rewrite xorb_false_r.
    now apply Binary64.binary_round_aux_signed.
Qed.

Lemma SFleb_signed_zero (x : spec_float) :
  signed true x = true -> SFleb x (S754_zero false) = true.
Proof. now destruct x as [[|]|[|]| |[|] m e]. Qed.

End Special.

Section EngineEdges.

Variable pow : float -> float -> float.

Implicit Types (arguments : CommandLineArguments) (table : list (option float)).

(** X3. A pass with a single variant selected returns the value it stores in
    that variant's entry, and it is the value a pass with "all" selected
    stores in the same entry for the same inputs. *)
Theorem single_selection_agrees_with_all arguments allArguments
    (Aout Vdd : float) table table0 :
  length table = kOutputDistributionIndexCalibratedSensorOutputMax ->
  length table0 = kOutputDistributionIndexCalibratedSensorOutputMax ->
  outputSelect (common arguments) < kOutputDistributionIndexCalibratedSensorOutputMax ->
  outputSelect (common allArguments) = kOutputDistributionIndexCalibratedSensorOutputMax ->
  let single := calculateSensorOutput pow arguments [Aout; Vdd] table in
  let all := calculateSensorOutput pow allArguments [Aout; Vdd] table0 in
  is_Some single.1 /\
  single.2 !! outputSelect (common arguments) = Some single.1 /\
  all.2 !! outputSelect (common arguments) = Some single.1.
Proof.
  intros Hlen Hlen0 Hsel Hall single all. subst single all.
  destruct (table_of_length_4 table Hlen) as (o0 & o1 & o2 & o3 & ->).
  destruct (table_of_length_4 table0 Hlen0) as (p0 & p1 & p2 & p3 & ->).
  rewrite !calculateSensorOutput_cases, Hall.
  unfold kOutputDistributionIndexCalibratedSensorOutputMax in *.
  destruct (outputSelect (common arguments)) as [|[|[|[|k]]]]; try lia;
    (split; [eexists; reflexivity | split; reflexivity]).
Qed.

Lemma linear_zero_supply (c1 c2 Aout Vdd : float) :
  (Vdd =? 0) = true -> is_real c2 = true ->
  is_real (c1 * Aout / Vdd - c2) = false.
Proof.
  intros Hzero Hc2. destruct (Special.eqb_zero_class Vdd Hzero) as [s HVdd].
  unfold is_real in *.
  rewrite FloatAxioms.sub_spec, FloatAxioms.div_spec, HVdd.
  pose proof (Special.SFsub_special_real _ _
                (Special.SFdiv_zero_special (Prim2SF (c1 * Aout)) s) Hc2) as Hspecial.
  unfold special in Hspecial. now apply negb_true_iff in Hspecial.
Qed.

Lemma sqrt_zero_supply (k1 y k4 Aout Vdd : float) :
  (Vdd =? 0) = true -> is_real k1 = true ->
  sign (Aout / Vdd - k1) * y * k4 = nan.
Proof.
  intros Hzero Hk1. destruct (Special.eqb_zero_class Vdd Hzero) as [s HVdd].
  rewrite Special.sign_special, !Special.nan_mul; [reflexivity|].
  rewrite FloatAxioms.sub_spec, FloatAxioms.div_spec, HVdd.
  apply Special.SFsub_special_real; [apply Special.SFdiv_zero_special | exact Hk1].
Qed.

(** X4. With a supply voltage that compares equal to 0, no variant that a
    pass computes is a real number: the linear ones are an infinity or a
    NaN, and the square-root ones are NaN whatever [pow] returns. *)
Theorem zero_supply_gives_no_real_output arguments (Aout Vdd : float) table (index : nat) :
  (Vdd =? 0) = true ->
  length table = kOutputDistributionIndexCalibratedSensorOutputMax ->
  computed arguments index ->
  exists v : float,
    (calculateSensorOutput pow arguments [Aout; Vdd] table).2 !! index = Some (Some v) /\
    is_real v = false /\
    (kOutputDistributionIndexCalibratedSensorOutputSDP8x6Sqrt500Pa <= index ->
     is_nan v = true).
Proof.
  intros Hzero Hlen [Hindex Hsel].
  destruct (table_of_length_4 table Hlen) as (o0 & o1 & o2 & o3 & ->).
  rewrite calculateSensorOutput_cases.
  pose proof (linear_zero_supply 750 150 Aout Vdd Hzero eq_refl) as H500.
  pose proof (linear_zero_supply 190 38 Aout Vdd Hzero eq_refl) as H125.
  pose proof (fun y k4 => sqrt_zero_supply 0.5 y k4 Aout Vdd Hzero eq_refl) as Hsqrt.
  unfold kOutputDistributionIndexCalibratedSensorOutputMax,
    kOutputDistributionIndexCalibratedSensorOutputSDP8x6Sqrt500Pa in *.
  assert (Hcases : index = 0%nat \/ index = 1%nat \/ index = 2%nat \/ index = 3%nat) by lia.
  destruct Hcases as [-> | [-> | [-> | ->]]]; destruct Hsel as [-> | ->];
    cbn [lookup list_lookup spec_variant]; eexists; (split; [reflexivity|]).
  all: unfold spec_Linear500Pa, spec_Linear125Pa, spec_Sqrt500Pa, spec_Sqrt125Pa.
  all: rewrite ?Hsqrt.
  all: split; [assumption || reflexivity | intros Hle; try lia; reflexivity].
Qed.

Lemma sqrt_crossover (d y k4 : float) :
  (d =? 0) = true -> is_real y = true -> is_real k4 = true ->
  (sign d * y * k4 =? 0) = true.
Proof.
  intros Hd Hy Hk4. unfold sign. rewrite Hd.
  unfold is_real in *.
  rewrite FloatAxioms.eqb_spec, !FloatAxioms.mul_spec.
  change (Prim2SF 0) with (S754_zero false).
  destruct (Prim2SF y) as [sy | sy | | sy my ey]; try discriminate;
    destruct (Prim2SF k4) as [sk | sk | | sk mk ek]; try discriminate; reflexivity.
Qed.

(** X5. At the crossover, where Aout/Vdd - 0.5 compares equal to 0, the two
    square-root variants are zero (and not NaN) whenever [pow] returns a real
    number. *)
Theorem crossover_gives_zero arguments (Aout Vdd : float) table (index : nat) :
  (Aout / Vdd - kSensorCalibrationConstantSDP8x6Sqrt500Pa1 =? 0) = true ->
  is_real (pow (Aout / (Vdd * kSensorCalibrationConstantSDP8x6Sqrt500Pa2)
                - kSensorCalibrationConstantSDP8x6Sqrt500Pa3) 2) = true ->
  length table = kOutputDistributionIndexCalibratedSensorOutputMax ->
  computed arguments index ->
  kOutputDistributionIndexCalibratedSensorOutputSDP8x6Sqrt500Pa <= index ->
  exists v : float,
    (calculateSensorOutput pow arguments [Aout; Vdd] table).2 !! index = Some (Some v) /\
    (v =? 0) = true.
Proof.
  intros Hd Hy Hlen [Hindex Hsel] Hsqrt.
  destruct (table_of_length_4 table Hlen) as (o0 & o1 & o2 & o3 & ->).
  rewrite calculateSensorOutput_cases.
  pose proof (fun k4 => sqrt_crossover _ _ k4 Hd Hy) as Hzero.
  unfold kOutputDistributionIndexCalibratedSensorOutputMax,
    kOutputDistributionIndexCalibratedSensorOutputSDP8x6Sqrt500Pa in *.
  assert (Hcases : index = 2%nat \/ index = 3%nat) by lia.
  destruct Hcases as [-> | ->]; destruct Hsel as [-> | ->];
    cbn [lookup list_lookup spec_variant]; eexists; (split; [reflexivity|]);
    apply Hzero; reflexivity.
Qed.

Lemma sqrt_sign (d t k4 : float) (mk : positive) (ek : Z) :
  (forall x, pow x 2 = x * x) ->
  is_real d = true -> is_nan t = false ->
  Prim2SF k4 = S754_finite false mk ek ->
  let v := sign d * pow t 2 * k4 in
  ((0 <? d) = true -> (0 <=? v) = true) /\
  ((d <? 0) = true -> (v <=? 0) = true).
Proof.
  intros Hpow Hd Ht Hk4 v. subst v. rewrite Hpow, sign_by_class.
  rewrite !FloatAxioms.ltb_spec, !FloatAxioms.leb_spec.
  change (Prim2SF 0) with (S754_zero false).
  unfold is_real in Hd.
  pose proof (Binary64.SFmul_self_signed _ (Special.is_nan_nonnan t Ht)) as Hsq.
  destruct (Prim2SF d) as [sd | sd | | sd md ed] eqn:Hclass; try discriminate.
  - split; intros H; discriminate H.
  - assert (Hv : signed sd (Prim2SF ((if sd then -1 else 1) * (t * t) * k4)) = true).
    { rewrite !FloatAxioms.mul_spec, Hk4.
      apply Special.SFmul_signed_finite.
      replace sd with (xorb sd false) at 1 by apply xorb_false_r.
      destruct sd.
      - change (Prim2SF (-1)) with (S754_finite true 4503599627370496 (-52)).
        now apply Special.SFmul_finite_signed.
      - change (Prim2SF 1) with (S754_finite false 4503599627370496 (-52)).
        now apply Special.SFmul_finite_signed. }
    destruct sd; split; intros H; try discriminate H.
    + now apply Special.SFleb_signed_zero.
    + now apply Binary64.SFleb_zero_signed.
Qed.

(** X6. With a [pow] that is exact at exponent 2, a square-root variant has
    the sign of Aout/Vdd - 0.5: it is at least 0 above the crossover and at
    most 0 below it (for a real offset and a squared term that is not NaN). *)
Theorem sqrt_output_has_sign_of_offset arguments (Aout Vdd : float) table (index : nat) :
  (forall x, pow x 2 = x * x) ->
  let d := Aout / Vdd - kSensorCalibrationConstantSDP8x6Sqrt500Pa1 in
  let t := Aout / (Vdd * kSensorCalibrationConstantSDP8x6Sqrt500Pa2)
           - kSensorCalibrationConstantSDP8x6Sqrt500Pa3 in
  is_real d = true -> is_nan t = false ->
  length table = kOutputDistributionIndexCalibratedSensorOutputMax ->
  computed arguments index ->
  kOutputDistributionIndexCalibratedSensorOutputSDP8x6Sqrt500Pa <= index ->
  exists v : float,
    (calculateSensorOutput pow arguments [Aout; Vdd] table).2 !! index = Some (Some v) /\
    ((0 <? d) = true -> (0 <=? v) = true) /\
    ((d <? 0) = true -> (v <=? 0) = true).
Proof.
  intros Hpow d t Hd Ht Hlen [Hindex Hsel] Hsqrt.
  destruct (table_of_length_4 table Hlen) as (o0 & o1 & o2 & o3 & ->).
  rewrite calculateSensorOutput_cases.
  pose proof (sqrt_sign d t 525 _ _ Hpow Hd Ht eq_refl) as H500.
  pose proof (sqrt_sign d t 133 _ _ Hpow Hd Ht eq_refl) as H125.
  unfold kOutputDistributionIndexCalibratedSensorOutputMax,
    kOutputDistributionIndexCalibratedSensorOutputSDP8x6Sqrt500Pa in *.
  assert (Hcases : index = 2%nat \/ index = 3%nat) by lia.
  destruct Hcases as [-> | ->]; destruct Hsel as [-> | ->];
    cbn [lookup list_lookup spec_variant]; eexists; (split; [reflexivity|]);
    assumption.
Qed.

End EngineEdges.


Lemma zero_supply_gives_no_real_output_witness :
  exists v : float,
    (calculateSensorOutput pow_square (exampleArguments 4 false 1 false false false false)
       [1.5; - 0] (replicate 4 None)).2 !! 2%nat = Some (Some v) /\
    is_real v = false /\ is_nan v = true.
Proof.
  assert (Hcomputed : computed (exampleArguments 4 false 1 false false false false) 2)
    by (split; [repeat constructor | left; reflexivity]).
  destruct (zero_supply_gives_no_real_output pow_square
              (exampleArguments 4 false 1 false false false false) 1.5 (- 0)
              (replicate 4 None) 2 eq_refl eq_refl Hcomputed)
    as (v & Hentry & Hreal & Hnan).
  exists v. split; [exact Hentry|]. split; [exact Hreal|].
  apply Hnan. repeat constructor.
Defined.


Lemma single_selection_agrees_with_all_witness :
  let single :=
    calculateSensorOutput pow_square (exampleArguments 2 false 1 false false false false)
      [1.5; 3.5] [Some 7; None; None; None] in
  let all :=
    calculateSensorOutput pow_square (exampleArguments 4 false 1 false false false false)
      [1.5; 3.5] (replicate 4 None) in
  single.2 !! 2%nat = Some single.1 /\ all.2 !! 2%nat = Some single.1.
Proof.
  cbv zeta.
  destruct (single_selection_agrees_with_all pow_square
              (exampleArguments 2 false 1 false false false false)
              (exampleArguments 4 false 1 false false false false)
              1.5 3.5 [Some 7; None; None; None] (replicate 4 None)
              eq_refl eq_refl ltac:(repeat constructor) eq_refl)
    as (_ & Hsingle & Hall).
  split; [exact Hsingle | exact Hall].
Defined.

Lemma crossover_gives_zero_witness :
  exists v : float,
    (calculateSensorOutput pow_square (exampleArguments 3 false 1 false false false false)
       [1.75; 3.5] (replicate 4 None)).2 !! 3%nat = Some (Some v) /\
    (v =? 0) = true.
Proof.
  assert (Hcomputed : computed (exampleArguments 3 false 1 false false false false) 3)
    by (split; [repeat constructor | right; reflexivity]).
  exact (crossover_gives_zero pow_square
           (exampleArguments 3 false 1 false false false false) 1.75 3.5
           (replicate 4 None) 3 eq_refl eq_refl eq_refl Hcomputed
           ltac:(repeat constructor)).
Defined.

Lemma sqrt_output_has_sign_of_offset_witness :
  exists v : float,
    (calculateSensorOutput pow_square (exampleArguments 4 false 1 false false false false)
       [1.5; 3.5] (replicate 4 None)).2 !! 2%nat = Some (Some v) /\
    (v <=? 0) = true.
Proof.
  assert (Hcomputed : computed (exampleArguments 4 false 1 false false false false) 2)
    by (split; [repeat constructor | left; reflexivity]).
  destruct (sqrt_output_has_sign_of_offset pow_square
              (exampleArguments 4 false 1 false false false false) 1.5 3.5
              (replicate 4 None) 2 (fun _ => eq_refl) eq_refl eq_refl eq_refl Hcomputed
              ltac:(repeat constructor))
    as (v & Hentry & _ & Hneg).
  exists v. split; [exact Hentry | exact (Hneg eq_refl)].
Defined.

(** ** The draws *)

Lemma between_positive_bounds (low high v : float) (ml : positive) (el : Z) :
  Prim2SF low = S754_finite false ml el ->
  is_real high = true ->
  (low <=? v) = true -> (v <=? high) = true ->
  is_real v = true /\ (v =? 0) = false /\ (0 <? v) = true.
Proof.
  unfold is_real.
  rewrite !FloatAxioms.leb_spec, FloatAxioms.eqb_spec, FloatAxioms.ltb_spec.
  change (Prim2SF 0) with (S754_zero false).
  intros -> Hhigh.
  destruct (Prim2SF v) as [s | [|] | | [|] m e]; try discriminate.
  - destruct (Prim2SF high) as [sh | sh | | [|] mh eh]; discriminate.
  - intros _ _. repeat split; reflexivity.
Qed.

(** X7. [setInputDistributionsViaUxHwCall] writes the Aout draw in entry 0
    and the Vdd draw in entry 1 and asks for them in that order; when the
    two draws lie within the bounds it asked for, both are positive real
    numbers, so the supply voltage the engine divides by is not 0. *)
Theorem bounded_draws_are_positive (uniform : nat -> float -> float -> float)
    (call : nat) (inputs : list float) :
  let Aout := uniform call kDefaultInputDistributionAoutUniformDistLow
                kDefaultInputDistributionAoutUniformDistHigh in
  let Vdd := uniform (S call) kDefaultInputDistributionVddUniformDistLow
               kDefaultInputDistributionVddUniformDistHigh in
  length inputs = kInputDistributionIndexMax ->
  (kDefaultInputDistributionAoutUniformDistLow <=? Aout) = true ->
  (Aout <=? kDefaultInputDistributionAoutUniformDistHigh) = true ->
  (kDefaultInputDistributionVddUniformDistLow <=? Vdd) = true ->
  (Vdd <=? kDefaultInputDistributionVddUniformDistHigh) = true ->
  setInputDistributionsViaUxHwCall uniform call inputs = [Aout; Vdd] /\
  is_real Aout = true /\ (0 <? Aout) = true /\
  is_real Vdd = true /\ (0 <? Vdd) = true /\ (Vdd =? 0) = false.
Proof.
  intros Aout Vdd Hlen HAlow HAhigh HVlow HVhigh.
  assert (HA : exists m e, Prim2SF kDefaultInputDistributionAoutUniformDistLow
                           = S754_finite false m e) by (eexists _, _; reflexivity).
  assert (HV : exists m e, Prim2SF kDefaultInputDistributionVddUniformDistLow
                           = S754_finite false m e) by (eexists _, _; reflexivity).
  destruct HA as (mA & eA & HA). destruct HV as (mV & eV & HV).
  destruct (between_positive_bounds _ kDefaultInputDistributionAoutUniformDistHigh Aout _ _
              HA eq_refl HAlow HAhigh)
    as (HAreal & _ & HApos).
  destruct (between_positive_bounds _ kDefaultInputDistributionVddUniformDistHigh Vdd _ _
              HV eq_refl HVlow HVhigh)
    as (HVreal & HVne & HVpos).
  split; [|auto 10].
  destruct inputs as [|a [|v [|x inputs]]]; try discriminate. reflexivity.
Qed.

Lemma bounded_draws_are_positive_witness :
  let uniform := UxHwDoubleUniformDist
                   (exampleWorld (exampleArguments 4 false 1 false false false false) 0) in
  exists Aout Vdd : float,
    setInputDistributionsViaUxHwCall uniform 0 [0; 0] = [Aout; Vdd] /\
    (Vdd =? 0) = false.
Proof.
  cbv zeta.
  destruct (bounded_draws_are_positive
              (UxHwDoubleUniformDist
                 (exampleWorld (exampleArguments 4 false 1 false false false false) 0))
              0 [0; 0] eq_refl eq_refl eq_refl eq_refl eq_refl)
    as (Hset & _ & _ & _ & _ & Hne).
  eexists _, _. split; [exact Hset | exact Hne].
Defined.

(** ** What the loop leaves behind *)

Section Loop.

Variable pow : float -> float -> float.
Variable CLOCKS_PER_SEC : Z.
Variable PRIu64 : string.
Variable kCommonConstantReturnTypeError : Z.

Implicit Types (w : World) (arguments : CommandLineArguments) (s : locals).

(** The entries of the table after one pass. *)
Lemma calculateSensorOutput_entries arguments (Aout Vdd : float)
    (table : list (option float)) (index : nat) :
  length table = kOutputDistributionIndexCalibratedSensorOutputMax ->
  (calculateSensorOutput pow arguments [Aout; Vdd] table).2 !! index =
    if computedb arguments index
    then Some (spec_variant pow index Aout Vdd)
    else table !! index.
Proof.
  intros Hlen.
  destruct (table_of_length_4 table Hlen) as (o0 & o1 & o2 & o3 & ->).
  rewrite calculateSensorOutput_cases. unfold computedb.
  destruct (outputSelect (common arguments)) as [|[|[|[|[|n]]]]];
    destruct index as [|[|[|[|index]]]]; reflexivity.
Qed.

Lemma iteration_outputs w arguments (i : nat) s :
  sized s ->
  outputDistributions (iteration pow w arguments i s) =
    (calculateSensorOutput pow arguments (drawn w i) (outputDistributions s)).2.
Proof.
  intros [Hin _]. unfold iteration.
  rewrite (setInputDistributionsViaUxHwCall_drawn w i _ Hin).
  now destruct (calculateSensorOutput pow arguments (drawn w i) (outputDistributions s)).
Qed.

(** After at least one iteration the scalar and the computed entries are
    those of the last iteration; the other entries were never touched. *)
Lemma samplingLoop_last w arguments (count : nat) :
  forall (first : nat) s,
    sized s ->
    let s' := samplingLoop pow w arguments first (S count) s in
    calibratedSensorOutput s' = tracked pow arguments w (first + count) /\
    forall index,
      outputDistributions s' !! index =
        if computedb arguments index
        then Some (spec_variant pow index
                     (drawn w (first + count) !!! kInputDistributionIndexAout)
                     (drawn w (first + count) !!! kInputDistributionIndexVdd))
        else outputDistributions s !! index.
Proof.
  induction count as [|count IH]; intros first s Hs.
  - cbn [samplingLoop]. rewrite Nat.add_0_r.
    destruct (iteration_fields pow w arguments first s Hs) as (_ & Hcal & _).
    split; [exact Hcal|]. intros index.
    rewrite (iteration_outputs w arguments first s Hs).
    destruct Hs as [_ Hout].
    exact (calculateSensorOutput_entries arguments _ _ _ index Hout).
  - destruct (iteration_fields pow w arguments first s Hs) as (Hs' & _).
    destruct (IH (S first) _ Hs') as [Hcal Hentries].
    change (samplingLoop pow w arguments first (S (S count)) s)
      with (samplingLoop pow w arguments (S first) (S count)
              (iteration pow w arguments first s)).
    replace (first + S count)%nat with (S first + count)%nat by lia.
    split; [exact Hcal|]. intros index. rewrite (Hentries index).
    destruct (computedb arguments index) eqn:Hc; [reflexivity|].
    rewrite (iteration_outputs w arguments first s Hs).
    destruct Hs as [_ Hout].
    pose proof (calculateSensorOutput_entries arguments _ _ _ index Hout
                : (calculateSensorOutput pow arguments (drawn w first)
                     (outputDistributions s)).2 !! index = _) as Hentry.
    rewrite Hentry, Hc. reflexivity.
Qed.

Lemma beforeLoop_fields w arguments :
  sized (beforeLoop w arguments) /\
  outputDistributions (beforeLoop w arguments)
    = replicate kOutputDistributionIndexCalibratedSensorOutputMax None /\
  calibratedSensorOutput (beforeLoop w arguments) = None.
Proof.
  unfold beforeLoop, startTiming, allocateSamples.
  destruct (isMonteCarloMode (common arguments)), (checkedMalloc w),
    (isTimingEnabled (common arguments) || isBenchmarkingMode (common arguments));
    repeat split; reflexivity.
Qed.

(** What the blocks after the loop keep of it. *)
Lemma main_keeps_loop_results w arguments :
  getCommandLineArguments w = Some arguments ->
  (isMonteCarloMode (common arguments) = true -> checkedMalloc w = true) ->
  let looped := samplingLoop pow w arguments 0
                  (numberOfMonteCarloIterations (common arguments))
                  (beforeLoop w arguments) in
  let run := main pow CLOCKS_PER_SEC PRIu64 kCommonConstantReturnTypeError w in
  outputDistributions run.2 = outputDistributions looped /\
  (isMonteCarloMode (common arguments) = false ->
   calibratedSensorOutput run.2 = calibratedSensorOutput looped /\
   monteCarloOutputSamples run.2 = None).
Proof.
  intros Hargs Hmalloc looped run. subst run.
  rewrite (main_after_allocation pow CLOCKS_PER_SEC PRIu64
             kCommonConstantReturnTypeError w arguments Hargs Hmalloc).
  unfold beforeReport. fold (beforeLoop w arguments). fold looped.
  assert (Hnull : isMonteCarloMode (common arguments) = false ->
                  monteCarloOutputSamples looped = None).
  { intros Hmc. subst looped.
    destruct (beforeLoop_fields w arguments) as (Hsized & _).
    assert (Hstart : monteCarloOutputSamples (beforeLoop w arguments) = None).
    { unfold beforeLoop, startTiming, allocateSamples. rewrite Hmc.
      now destruct (isTimingEnabled (common arguments)
                    || isBenchmarkingMode (common arguments)). }
    revert Hsized Hstart. generalize (beforeLoop w arguments). generalize 0%nat.
    induction (numberOfMonteCarloIterations (common arguments)) as [|n IH];
      intros first s Hsized Hstart; [exact Hstart|].
    cbn [samplingLoop].
    destruct (iteration_fields pow w arguments first s Hsized) as (Hs' & _ & Hsamples & _).
    apply IH; [exact Hs'|]. rewrite Hsamples, Hmc. exact Hstart. }
  clearbody looped.
  unfold report, saveAndFree, stopTiming, reduceSamples, printAllOutputs.
  destruct (writeOutputDoubleDistributionsToCSV w =? 0)%Z.
  all: destruct arguments as [[select mc n timing bench json write path]]; cbn in *.
  all: destruct bench, json, timing, write, mc,
         (select =? kOutputDistributionIndexCalibratedSensorOutputMax)%nat.
  all: cbn; split; [reflexivity|]; intros Hmc; try discriminate Hmc.
  all: split; [reflexivity | auto].
Qed.

End Loop.

(** ** The calls of a whole run *)

Section Calls.

Variable pow : float -> float -> float.
Variable CLOCKS_PER_SEC : Z.
Variable PRIu64 : string.
Variable kCommonConstantReturnTypeError : Z.

Implicit Types (w : World) (arguments : CommandLineArguments) (s : locals).

(** Opens [main] after the allocation: [s] is the state at the reporting
    block, [Hbtrace] its trace and [Hbcpu] its [cpuTimeUsedSeconds]. *)
Ltac open_main w arguments Hargs Hmalloc :=
  rewrite (main_after_allocation pow CLOCKS_PER_SEC PRIu64
             kCommonConstantReturnTypeError w arguments Hargs Hmalloc);
  destruct (allocateSamples_fields w arguments (initialLocals w) Hmalloc)
    as (_ & Hsized & Htrace & _ & Hcpu0 & _);
  specialize (Hsized (initialLocals_sized w));
  destruct (beforeReport_fields pow CLOCKS_PER_SEC w arguments _ Hsized)
    as (Hbtrace & Hbcpu & Hbsamples & _);
  cbv zeta in *; rewrite Htrace in Hbtrace; rewrite Hcpu0 in Hbcpu;
  clear Htrace Hsized Hcpu0;
  set (s := beforeReport pow CLOCKS_PER_SEC w arguments _) in *;
  clearbody s;
  unfold report, saveAndFree, printAllOutputs, microseconds, timed in *.

(** The reporting calls of a run that is not a benchmark, read off its final
    locals. *)
Lemma report_calls w arguments :
  getCommandLineArguments w = Some arguments ->
  (isMonteCarloMode (common arguments) = true -> checkedMalloc w = true) ->
  isBenchmarkingMode (common arguments) = false ->
  let run := main pow CLOCKS_PER_SEC PRIu64 kCommonConstantReturnTypeError w in
  printedValues (trace run.2) =
    (if isOutputJSONMode (common arguments) then []
     else if (outputSelect (common arguments) =?
                kOutputDistributionIndexCalibratedSensorOutputMax)%nat
          then (fun i => (mjoin (outputDistributions run.2 !! i), outputVariableNames !! i))
                 <$> seq 0 kOutputDistributionIndexCalibratedSensorOutputMax
          else [(calibratedSensorOutput run.2,
                 outputVariableNames !! outputSelect (common arguments))]) /\
  jsonReports (trace run.2) =
    (if isOutputJSONMode (common arguments)
     then [(monteCarloOutputSamples run.2, outputDistributions run.2)] else []) /\
  csvWrites (trace run.2) =
    (if isWriteToFileEnabled (common arguments)
     then [(outputFilePath (common arguments), outputDistributions run.2,
            kOutputDistributionIndexCalibratedSensorOutputMax)]
     else []) /\
  timingLines (trace run.2) =
    (if isTimingEnabled (common arguments) then [cpuTimeUsedSeconds run.2] else []).
Proof.
  intros Hargs Hmalloc Hbench run. subst run.
  open_main w arguments Hargs Hmalloc.
  destruct (writeOutputDoubleDistributionsToCSV w =? 0)%Z.
  all: destruct arguments as [[select mc n timing bench json write path]]; cbn in *.
  all: subst bench.
  all: destruct json, timing, write, mc,
         (select =? kOutputDistributionIndexCalibratedSensorOutputMax)%nat.
  all: cbn in *; rewrite ?Hbtrace; cbn.
  all: unfold printedValues, jsonReports, csvWrites, timingLines;
       rewrite ?flat_map_app; cbn.
  all: repeat split; reflexivity.
Qed.

(** A benchmark run makes none of the other reporting calls. *)
Lemma benchmark_only_line w arguments :
  getCommandLineArguments w = Some arguments ->
  (isMonteCarloMode (common arguments) = true -> checkedMalloc w = true) ->
  isBenchmarkingMode (common arguments) = true ->
  let run := main pow CLOCKS_PER_SEC PRIu64 kCommonConstantReturnTypeError w in
  printedValues (trace run.2) = [] /\
  jsonReports (trace run.2) = [] /\
  csvWrites (trace run.2) = [] /\
  timingLines (trace run.2) = [].
Proof.
  intros Hargs Hmalloc Hbench run. subst run.
  open_main w arguments Hargs Hmalloc.
  destruct arguments as [[select mc n timing bench json write path]]; cbn in *.
  subst bench.
  destruct timing, mc; cbn in *; rewrite ?Hbtrace; cbn;
    unfold printedValues, jsonReports, csvWrites, timingLines;
    rewrite ?flat_map_app; cbn; repeat split; reflexivity.
Qed.

Lemma lookup_replicate_None (index : nat) :
  index < kOutputDistributionIndexCalibratedSensorOutputMax ->
  replicate kOutputDistributionIndexCalibratedSensorOutputMax (@None float) !! index
  = Some None.
Proof. intros Hi. now apply lookup_replicate_2. Qed.

(** X8. After a run of at least one iteration the output table holds, for
    every variant the selection computes, its value at the draws of the last
    iteration, and nothing for the other variants; outside Monte Carlo mode
    the calibrated output is the scalar of the last iteration. *)
Theorem output_table_holds_last_iteration w arguments (last : nat) :
  getCommandLineArguments w = Some arguments ->
  (isMonteCarloMode (common arguments) = true -> checkedMalloc w = true) ->
  numberOfMonteCarloIterations (common arguments) = S last ->
  let run := main pow CLOCKS_PER_SEC PRIu64 kCommonConstantReturnTypeError w in
  let Aout := drawn w last !!! kInputDistributionIndexAout in
  let Vdd := drawn w last !!! kInputDistributionIndexVdd in
  (forall index, index < kOutputDistributionIndexCalibratedSensorOutputMax ->
     outputDistributions run.2 !! index =
       Some (if computedb arguments index
             then spec_variant pow index Aout Vdd else None)) /\
  (isMonteCarloMode (common arguments) = false ->
   calibratedSensorOutput run.2 = tracked pow arguments w last).
Proof.
  intros Hargs Hmalloc Hn run Aout Vdd. subst run.
  destruct (main_keeps_loop_results pow CLOCKS_PER_SEC PRIu64
              kCommonConstantReturnTypeError w arguments Hargs Hmalloc)
    as [Htable Hscalar].
  cbv zeta in *. rewrite Hn in Htable, Hscalar.
  destruct (beforeLoop_fields w arguments) as (Hsized & Hinit & _).
  destruct (samplingLoop_last pow w arguments last 0 _ Hsized) as [Hcal Hentries].
  cbv zeta in *. split.
  - intros index Hindex. rewrite Htable, Hentries, Hinit.
    destruct (computedb arguments index); [reflexivity|].
    now apply lookup_replicate_None.
  - intros Hmc. destruct (Hscalar Hmc) as [-> _]. exact Hcal.
Qed.

(** X9. With zero iterations nothing is drawn or computed: the output
    table stays unassigned and, outside Monte Carlo mode, so does the
    calibrated output; every value the plain report then prints is an
    unassigned one. *)
Theorem zero_iterations_compute_nothing w arguments :
  getCommandLineArguments w = Some arguments ->
  (isMonteCarloMode (common arguments) = true -> checkedMalloc w = true) ->
  numberOfMonteCarloIterations (common arguments) = 0%nat ->
  let run := main pow CLOCKS_PER_SEC PRIu64 kCommonConstantReturnTypeError w in
  outputDistributions run.2
    = replicate kOutputDistributionIndexCalibratedSensorOutputMax None /\
  (isMonteCarloMode (common arguments) = false ->
   calibratedSensorOutput run.2 = None /\
   Forall (fun printed => printed.1 = None) (printedValues (trace run.2))).
Proof.
  intros Hargs Hmalloc Hn run.
  destruct (main_keeps_loop_results pow CLOCKS_PER_SEC PRIu64
              kCommonConstantReturnTypeError w arguments Hargs Hmalloc)
    as [Htable Hscalar].
  cbv zeta in *. rewrite Hn in Htable, Hscalar. cbn [samplingLoop] in Htable, Hscalar.
  destruct (beforeLoop_fields w arguments) as (_ & Hinit & Hnone).
  rewrite Hinit in Htable. rewrite Hnone in Hscalar.
  split; [exact Htable|]. intros Hmc.
  destruct (Hscalar Hmc) as [Hcal _]. split; [exact Hcal|].
  destruct (isBenchmarkingMode (common arguments)) eqn:Hbench.
  - destruct (benchmark_only_line w arguments Hargs Hmalloc Hbench) as (Hprinted & _).
    fold run in Hprinted. rewrite Hprinted. constructor.
  - destruct (report_calls w arguments Hargs Hmalloc Hbench) as (Hprinted & _).
    fold run in Hprinted, Hcal, Htable. rewrite Hprinted.
    destruct (isOutputJSONMode (common arguments)); [constructor|].
    destruct (outputSelect (common arguments) =? _)%nat.
    + rewrite Htable. repeat constructor.
    + rewrite Hcal. repeat constructor.
Qed.

Lemma tracked_out_of_range arguments w (i : nat) :
  kOutputDistributionIndexCalibratedSensorOutputMax < outputSelect (common arguments) ->
  tracked pow arguments w i = None /\ forall index, computedb arguments index = false.
Proof.
  unfold tracked, drawn, computedb, kOutputDistributionIndexCalibratedSensorOutputMax.
  cbn [replicate]. rewrite calculateSensorOutput_cases. intros Hsel.
  destruct (outputSelect (common arguments)) as [|[|[|[|[|n]]]]]; try lia.
  split; [reflexivity|].
  intros [|[|[|[|index]]]]; reflexivity.
Qed.

(** X10. With a selection beyond "all", outside Monte Carlo mode, no
    variant is ever computed: the output table stays unassigned whatever the
    number of iterations, the calibrated output is never assigned, and the
    plain report prints that unassigned value under a name read past the
    end of the name table. *)
Theorem out_of_range_selection_computes_nothing w arguments :
  getCommandLineArguments w = Some arguments ->
  isMonteCarloMode (common arguments) = false ->
  kOutputDistributionIndexCalibratedSensorOutputMax < outputSelect (common arguments) ->
  let run := main pow CLOCKS_PER_SEC PRIu64 kCommonConstantReturnTypeError w in
  outputDistributions run.2
    = replicate kOutputDistributionIndexCalibratedSensorOutputMax None /\
  calibratedSensorOutput run.2 = None /\
  (isBenchmarkingMode (common arguments) = false ->
   isOutputJSONMode (common arguments) = false ->
   printedValues (trace run.2) = [(None, None)]).
Proof.
  intros Hargs Hmc Hsel run.
  assert (Hmalloc : isMonteCarloMode (common arguments) = true -> checkedMalloc w = true)
    by (rewrite Hmc; discriminate).
  destruct (main_keeps_loop_results pow CLOCKS_PER_SEC PRIu64
              kCommonConstantReturnTypeError w arguments Hargs Hmalloc)
    as [Htable Hscalar].
  cbv zeta in *. destruct (Hscalar Hmc) as [Hcal _]. clear Hscalar.
  destruct (beforeLoop_fields w arguments) as (Hsized & Hinit & Hnone).
  assert (Hloop : outputDistributions
                    (samplingLoop pow w arguments 0
                       (numberOfMonteCarloIterations (common arguments))
                       (beforeLoop w arguments))
                  = replicate kOutputDistributionIndexCalibratedSensorOutputMax None /\
                  calibratedSensorOutput
                    (samplingLoop pow w arguments 0
                       (numberOfMonteCarloIterations (common arguments))
                       (beforeLoop w arguments)) = None).
  { destruct (numberOfMonteCarloIterations (common arguments)) as [|last].
    - split; [exact Hinit | exact Hnone].
    - destruct (samplingLoop_last pow w arguments last 0 _ Hsized) as [Hlast Hentries].
      cbv zeta in *. split.
      + apply list_eq. intros index. rewrite Hentries, Hinit.
        now rewrite (proj2 (tracked_out_of_range arguments w 0 Hsel) index).
      + rewrite Hlast. exact (proj1 (tracked_out_of_range arguments w _ Hsel)). }
  destruct Hloop as [Hloop1 Hloop2]. rewrite Hloop1 in Htable. rewrite Hloop2 in Hcal.
  split; [exact Htable|]. split; [exact Hcal|].
  intros Hbench Hjson.
  destruct (report_calls w arguments Hargs Hmalloc Hbench) as (Hprinted & _).
  fold run in Hprinted, Hcal. rewrite Hprinted, Hjson, Hcal.
  unfold kOutputDistributionIndexCalibratedSensorOutputMax in *.
  destruct (outputSelect (common arguments)) as [|[|[|[|[|n]]]]]; try lia.
  reflexivity.
Qed.

(** X11. In a plain report after at least one iteration: with "all"
    selected the four values printed are the four variants at the draws of
    the last iteration, in table order and under their names, also in Monte
    Carlo mode, where the mean is then not printed; with one variant
    selected the one value printed is that variant at the last draws outside
    Monte Carlo mode, and the mean of the reduction in Monte Carlo mode. *)
Theorem plain_report_prints w arguments (last : nat) :
  getCommandLineArguments w = Some arguments ->
  (isMonteCarloMode (common arguments) = true -> checkedMalloc w = true) ->
  isBenchmarkingMode (common arguments) = false ->
  isOutputJSONMode (common arguments) = false ->
  numberOfMonteCarloIterations (common arguments) = S last ->
  let run := main pow CLOCKS_PER_SEC PRIu64 kCommonConstantReturnTypeError w in
  let Aout := drawn w last !!! kInputDistributionIndexAout in
  let Vdd := drawn w last !!! kInputDistributionIndexVdd in
  (outputSelect (common arguments) = kOutputDistributionIndexCalibratedSensorOutputMax ->
   printedValues (trace run.2) =
     [ (Some (spec_Linear500Pa Aout Vdd), Some "Calibrated Sensor Output SDP8x6 Linear 500Pa"%string);
       (Some (spec_Linear125Pa Aout Vdd), Some "Calibrated Sensor Output SDP8x6 Linear 125Pa"%string);
       (Some (spec_Sqrt500Pa pow Aout Vdd), Some "Calibrated Sensor Output SDP8x6 Square 500Pa"%string);
       (Some (spec_Sqrt125Pa pow Aout Vdd), Some "Calibrated Sensor Output SDP8x6 Square 125Pa"%string) ]) /\
  (outputSelect (common arguments) < kOutputDistributionIndexCalibratedSensorOutputMax ->
   printedValues (trace run.2) =
     [ (if isMonteCarloMode (common arguments)
        then mean <$> meanAndVariance run.2
        else spec_variant pow (outputSelect (common arguments)) Aout Vdd,
        outputVariableNames !! outputSelect (common arguments)) ] /\
   is_Some (outputVariableNames !! outputSelect (common arguments))).
Proof.
  intros Hargs Hmalloc Hbench Hjson Hn run Aout Vdd.
  destruct (report_calls w arguments Hargs Hmalloc Hbench) as (Hprinted & _).
  fold run in Hprinted. rewrite Hjson in Hprinted.
  destruct (main_keeps_loop_results pow CLOCKS_PER_SEC PRIu64
              kCommonConstantReturnTypeError w arguments Hargs Hmalloc)
    as [Htable Hscalar].
  cbv zeta in Htable, Hscalar. fold run in Htable, Hscalar. rewrite Hn in Htable, Hscalar.
  destruct (beforeLoop_fields w arguments) as (Hsized & Hinit & _).
  destruct (samplingLoop_last pow w arguments last 0 _ Hsized) as [Hcal Hentries].
  cbv zeta in Hcal, Hentries. rewrite <- Htable in Hentries.
  unfold kOutputDistributionIndexCalibratedSensorOutputMax in *.
  split.
  - intros Hall. rewrite Hprinted, Hall. cbn [Nat.eqb seq fmap list_fmap].
    rewrite !Hentries. unfold computedb. rewrite Hall. reflexivity.
  - intros Hsel. rewrite Hprinted.
    replace (outputSelect (common arguments) =? 4)%nat with false
      by (symmetry; apply Nat.eqb_neq; lia).
    split.
    + f_equal. f_equal.
      assert (Hmean : isMonteCarloMode (common arguments) = true ->
                      calibratedSensorOutput run.2 = mean <$> meanAndVariance run.2).
      { intros Hmc.
        destruct (main_keeps_results pow CLOCKS_PER_SEC PRIu64
                    kCommonConstantReturnTypeError w arguments Hargs Hmalloc)
          as (_ & Hcalibrated & Hmv & _).
        destruct (allocateSamples_fields w arguments (initialLocals w) Hmalloc)
          as (_ & Hsized0 & _).
        specialize (Hsized0 (initialLocals_sized w)).
        destruct (beforeReport_fields pow CLOCKS_PER_SEC w arguments _ Hsized0)
          as (_ & _ & _ & Hreduced).
        destruct (Hreduced Hmc) as [_ Hmean].
        cbv zeta in *. fold run in Hcalibrated, Hmv.
        now rewrite Hcalibrated, Hmv, Hmean. }
      destruct (isMonteCarloMode (common arguments)) eqn:Hmc.
      * now apply Hmean.
      * destruct (Hscalar eq_refl) as [-> _]. rewrite Hcal.
        unfold tracked, drawn, kOutputDistributionIndexCalibratedSensorOutputMax.
        cbn [replicate]. rewrite calculateSensorOutput_cases.
        destruct (outputSelect (common arguments)) as [|[|[|[|k]]]]; try lia; reflexivity.
    + destruct (outputSelect (common arguments)) as [|[|[|[|k]]]]; try lia;
        eexists; reflexivity.
Qed.

(** X12. With one variant selected, the whole four-entry table is still
    what the CSV writer and the JSON printer are handed, and after at least
    one iteration only the selected entry of it was ever assigned. *)
Theorem single_selection_hands_over_unassigned_entries w arguments (last : nat) :
  getCommandLineArguments w = Some arguments ->
  (isMonteCarloMode (common arguments) = true -> checkedMalloc w = true) ->
  isBenchmarkingMode (common arguments) = false ->
  outputSelect (common arguments) < kOutputDistributionIndexCalibratedSensorOutputMax ->
  numberOfMonteCarloIterations (common arguments) = S last ->
  let run := main pow CLOCKS_PER_SEC PRIu64 kCommonConstantReturnTypeError w in
  let table := outputDistributions run.2 in
  csvWrites (trace run.2) =
    (if isWriteToFileEnabled (common arguments)
     then [(outputFilePath (common arguments), table,
            kOutputDistributionIndexCalibratedSensorOutputMax)]
     else []) /\
  jsonReports (trace run.2) =
    (if isOutputJSONMode (common arguments)
     then [(monteCarloOutputSamples run.2, table)] else []) /\
  is_Some (mjoin (table !! outputSelect (common arguments))) /\
  forall index,
    index < kOutputDistributionIndexCalibratedSensorOutputMax ->
    index <> outputSelect (common arguments) ->
    table !! index = Some None.
Proof.
  intros Hargs Hmalloc Hbench Hsel Hn run table. subst table.
  destruct (report_calls w arguments Hargs Hmalloc Hbench) as (_ & Hjson & Hcsv & _).
  fold run in Hjson, Hcsv.
  destruct (main_keeps_loop_results pow CLOCKS_PER_SEC PRIu64
              kCommonConstantReturnTypeError w arguments Hargs Hmalloc)
    as [Htable _].
  cbv zeta in Htable. fold run in Htable. rewrite Hn in Htable.
  destruct (beforeLoop_fields w arguments) as (Hsized & Hinit & _).
  destruct (samplingLoop_last pow w arguments last 0 _ Hsized) as [_ Hentries].
  cbv zeta in Hentries. rewrite <- Htable, Hinit in Hentries.
  split; [exact Hcsv|]. split; [exact Hjson|].
  unfold kOutputDistributionIndexCalibratedSensorOutputMax in *.
  split.
  - rewrite Hentries. unfold computedb.
    destruct (outputSelect (common arguments)) as [|[|[|[|k]]]]; try lia;
      eexists; reflexivity.
  - intros index Hindex Hne. rewrite Hentries.
    unfold computedb, kOutputDistributionIndexCalibratedSensorOutputMax.
    replace (outputSelect (common arguments) =? 4)%nat with false
      by (symmetry; apply Nat.eqb_neq; lia).
    replace (outputSelect (common arguments) =? index)%nat with false
      by (symmetry; apply Nat.eqb_neq; lia).
    cbn [orb]. rewrite andb_false_r.
    apply lookup_replicate_None. exact Hindex.
Qed.

(** X13. [clock] is read exactly twice when timing or benchmarking is on
    and never otherwise; the reduction of a Monte Carlo run lies between
    the two reads; the elapsed seconds are the tick difference divided by
    [CLOCKS_PER_SEC]; and the CPU-time line is printed, with those seconds,
    exactly when timing is on and benchmarking is off. *)
Theorem clock_brackets_loop_and_reduction w arguments :
  getCommandLineArguments w = Some arguments ->
  (isMonteCarloMode (common arguments) = true -> checkedMalloc w = true) ->
  let run := main pow CLOCKS_PER_SEC PRIu64 kCommonConstantReturnTypeError w in
  let seconds := double_of_Z (clock w 1 - clock w 0) / double_of_Z CLOCKS_PER_SEC in
  filter (fun e => isTimedCall e = true) (trace run.2) =
    (if timed arguments then [EvClock (clock w 0)] else [])
    ++ (if isMonteCarloMode (common arguments)
        then [EvCalculateMeanAndVarianceOfDoubleSamples
                (monteCarloOutputSamples run.2)
                (numberOfMonteCarloIterations (common arguments))]
        else [])
    ++ (if timed arguments then [EvClock (clock w 1)] else []) /\
  cpuTimeUsedSeconds run.2 = (if timed arguments then Some seconds else None) /\
  timingLines (trace run.2) =
    (if isTimingEnabled (common arguments) && negb (isBenchmarkingMode (common arguments))
     then [Some seconds] else []).
Proof.
  intros Hargs Hmalloc run seconds. subst run seconds.
  open_main w arguments Hargs Hmalloc.
  rewrite <- Hbsamples in Hbtrace. clear Hbsamples.
  destruct (writeOutputDoubleDistributionsToCSV w =? 0)%Z.
  all: destruct arguments as [[select mc n timing bench json write path]]; cbn in *.
  all: destruct bench, json, timing, write, mc,
         (select =? kOutputDistributionIndexCalibratedSensorOutputMax)%nat.
  all: cbn in *; rewrite ?Hbtrace, ?Hbcpu; cbn.
  all: unfold timingLines; rewrite ?filter_app, ?flat_map_app; cbn.
  all: repeat split; reflexivity.
Qed.

(** X14. Outside Monte Carlo mode no buffer is allocated, reduced, saved or
    freed. In Monte Carlo mode the allocation is requested for the wrapped
    byte count, then the buffer is reduced, and, unless the CSV write fails,
    the same buffer is saved and then freed, once each and in that order. *)
Theorem buffer_calls_in_order w arguments :
  getCommandLineArguments w = Some arguments ->
  (isMonteCarloMode (common arguments) = true -> checkedMalloc w = true) ->
  let run := main pow CLOCKS_PER_SEC PRIu64 kCommonConstantReturnTypeError w in
  let n := numberOfMonteCarloIterations (common arguments) in
  let buffer := monteCarloOutputSamples run.2 in
  let failed :=
    negb (isBenchmarkingMode (common arguments)) &&
    isWriteToFileEnabled (common arguments) &&
    negb (writeOutputDoubleDistributionsToCSV w =? 0)%Z in
  filter (fun e => isBufferCall e = true) (trace run.2) =
    (if isMonteCarloMode (common arguments)
     then [ EvCheckedMalloc (Z.to_nat (size_t_mul (Z.of_nat n) sizeof_double));
            EvCalculateMeanAndVarianceOfDoubleSamples buffer n ]
          ++ (if failed then []
              else [ EvSaveMonteCarloDoubleDataToDataDotOutFile buffer
                       (seconds ← cpuTimeUsedSeconds run.2;
                        uint64_of_double (seconds * 1000000)) n;
                     EvFree buffer ])
     else []) /\
  (isMonteCarloMode (common arguments) = true -> is_Some buffer).
Proof.
  intros Hargs Hmalloc run n buffer failed. subst run n buffer failed.
  assert (Hsome : isMonteCarloMode (common arguments) = true ->
                  is_Some (monteCarloOutputSamples
                             (main pow CLOCKS_PER_SEC PRIu64
                                kCommonConstantReturnTypeError w).2)).
  { intros Hmc.
    destruct (main_keeps_results pow CLOCKS_PER_SEC PRIu64
                kCommonConstantReturnTypeError w arguments Hargs Hmalloc) as (-> & _).
    destruct (allocateSamples_fields w arguments (initialLocals w) Hmalloc)
      as (_ & Hsized & _ & Hbuf & _).
    specialize (Hsized (initialLocals_sized w)).
    destruct (beforeReport_fields pow CLOCKS_PER_SEC w arguments _ Hsized)
      as (_ & _ & -> & _).
    cbv zeta in Hbuf. rewrite Hmc in Hbuf.
    assert (Hstart : sized (startTiming w arguments
                              (allocateSamples w arguments (initialLocals w)).1) /\
                     monteCarloOutputSamples
                       (startTiming w arguments
                          (allocateSamples w arguments (initialLocals w)).1)
                     = monteCarloOutputSamples
                         (allocateSamples w arguments (initialLocals w)).1).
    { unfold startTiming.
      destruct (isTimingEnabled (common arguments) || isBenchmarkingMode (common arguments));
        split; auto. }
    destruct Hstart as [Hsized' Hbuf']. rewrite Hbuf in Hbuf'.
    destruct (samplingLoop_samples pow w arguments
                (numberOfMonteCarloIterations (common arguments)) 0 _ _ Hsized' Hmc Hbuf')
      as (buffer & -> & _).
    eexists; reflexivity. }
  split; [|exact Hsome]. clear Hsome.
  open_main w arguments Hargs Hmalloc.
  rewrite <- Hbsamples in Hbtrace. clear Hbsamples.
  destruct (writeOutputDoubleDistributionsToCSV w =? 0)%Z.
  all: destruct arguments as [[select mc n timing bench json write path]]; cbn in *.
  all: destruct bench, json, timing, write, mc,
         (select =? kOutputDistributionIndexCalibratedSensorOutputMax)%nat.
  all: cbn in *; rewrite ?Hbtrace; cbn.
  all: rewrite ?filter_app; cbn.
  all: reflexivity.
Qed.

End Calls.

(** ** The further theorems at concrete inputs *)

Lemma output_table_holds_last_iteration_witness :
  let arguments := exampleArguments 1 false 3 false false false false in
  let w := exampleWorld arguments 0 in
  outputDistributions (run_main w).2 !! 1%nat
    = Some (spec_variant pow_square 1 (drawn w 2 !!! 0%nat) (drawn w 2 !!! 1%nat)) /\
  outputDistributions (run_main w).2 !! 0%nat = Some None /\
  calibratedSensorOutput (run_main w).2 = tracked pow_square arguments w 2.
Proof.
  cbv zeta.
  destruct (output_table_holds_last_iteration pow_square 1000000 "lu" 1
              (exampleWorld (exampleArguments 1 false 3 false false false false) 0)
              (exampleArguments 1 false 3 false false false false) 2
              eq_refl (fun H => eq_refl) eq_refl) as [Htable Hscalar].
  split; [|split].
  - exact (Htable 1%nat ltac:(repeat constructor)).
  - exact (Htable 0%nat ltac:(repeat constructor)).
  - exact (Hscalar eq_refl).
Defined.

Lemma zero_iterations_compute_nothing_witness :
  let arguments := exampleArguments 4 false 0 false false false true in
  let run := run_main (exampleWorld arguments 0) in
  outputDistributions run.2 = replicate 4 None /\
  calibratedSensorOutput run.2 = None /\
  Forall (fun printed => printed.1 = None) (printedValues (trace run.2)).
Proof.
  cbv zeta.
  destruct (zero_iterations_compute_nothing pow_square 1000000 "lu" 1
              (exampleWorld (exampleArguments 4 false 0 false false false true) 0)
              (exampleArguments 4 false 0 false false false true)
              eq_refl (fun H => eq_refl) eq_refl) as [Htable Hrest].
  destruct (Hrest eq_refl) as [Hcal Hprinted].
  split; [exact Htable | split; [exact Hcal | exact Hprinted]].
Defined.

Lemma out_of_range_selection_computes_nothing_witness :
  let arguments := exampleArguments 7 false 2 false false false false in
  let run := run_main (exampleWorld arguments 0) in
  outputDistributions run.2 = replicate 4 None /\
  printedValues (trace run.2) = [(None, None)].
Proof.
  cbv zeta.
  destruct (out_of_range_selection_computes_nothing pow_square 1000000 "lu" 1
              (exampleWorld (exampleArguments 7 false 2 false false false false) 0)
              (exampleArguments 7 false 2 false false false false)
              eq_refl eq_refl ltac:(repeat constructor)) as (Htable & _ & Hprinted).
  split; [exact Htable | exact (Hprinted eq_refl eq_refl)].
Defined.

Lemma plain_report_prints_witness :
  let arguments := exampleArguments 4 true 2 false false false false in
  let w := exampleWorld arguments 0 in
  let Aout := drawn w 1 !!! 0%nat in
  let Vdd := drawn w 1 !!! 1%nat in
  printedValues (trace (run_main w).2) =
    [ (Some (spec_Linear500Pa Aout Vdd), Some "Calibrated Sensor Output SDP8x6 Linear 500Pa"%string);
      (Some (spec_Linear125Pa Aout Vdd), Some "Calibrated Sensor Output SDP8x6 Linear 125Pa"%string);
      (Some (spec_Sqrt500Pa pow_square Aout Vdd), Some "Calibrated Sensor Output SDP8x6 Square 500Pa"%string);
      (Some (spec_Sqrt125Pa pow_square Aout Vdd), Some "Calibrated Sensor Output SDP8x6 Square 125Pa"%string) ].
Proof.
  cbv zeta.
  destruct (plain_report_prints pow_square 1000000 "lu" 1
              (exampleWorld (exampleArguments 4 true 2 false false false false) 0)
              (exampleArguments 4 true 2 false false false false) 1
              eq_refl (fun H => eq_refl) eq_refl eq_refl eq_refl) as [Hall _].
  exact (Hall eq_refl).
Defined.

Lemma single_selection_hands_over_unassigned_entries_witness :
  let arguments := exampleArguments 2 false 1 false false true true in
  let run := run_main (exampleWorld arguments 0) in
  csvWrites (trace run.2) = [("out.csv"%string, outputDistributions run.2, 4%nat)] /\
  jsonReports (trace run.2) = [(None, outputDistributions run.2)] /\
  outputDistributions run.2 !! 0%nat = Some None.
Proof.
  cbv zeta.
  destruct (single_selection_hands_over_unassigned_entries pow_square 1000000 "lu" 1
              (exampleWorld (exampleArguments 2 false 1 false false true true) 0)
              (exampleArguments 2 false 1 false false true true) 0
              eq_refl (fun H => eq_refl) eq_refl ltac:(repeat constructor) eq_refl)
    as (Hcsv & Hjson & _ & Hrest).
  split; [exact Hcsv | split; [exact Hjson|]].
  apply Hrest; [repeat constructor | discriminate].
Defined.

Lemma clock_brackets_loop_and_reduction_witness :
  let arguments := exampleArguments 0 true 2 true false false false in
  let run := run_main (exampleWorld arguments 0) in
  filter (fun e => isTimedCall e = true) (trace run.2) =
    [ EvClock 0;
      EvCalculateMeanAndVarianceOfDoubleSamples (monteCarloOutputSamples run.2) 2;
      EvClock 1234 ] /\
  timingLines (trace run.2) = [Some (double_of_Z 1234 / double_of_Z 1000000)].
Proof.
  cbv zeta.
  destruct (clock_brackets_loop_and_reduction pow_square 1000000 "lu" 1
              (exampleWorld (exampleArguments 0 true 2 true false false false) 0)
              (exampleArguments 0 true 2 true false false false)
              eq_refl (fun H => eq_refl)) as (Hcalls & _ & Hline).
  split; [exact Hcalls | exact Hline].
Defined.

Lemma buffer_calls_in_order_witness :
  let arguments := exampleArguments 0 true 2 false false false false in
  let run := run_main (exampleWorld arguments 0) in
  filter (fun e => isBufferCall e = true) (trace run.2) =
    [ EvCheckedMalloc 16;
      EvCalculateMeanAndVarianceOfDoubleSamples (monteCarloOutputSamples run.2) 2;
      EvSaveMonteCarloDoubleDataToDataDotOutFile (monteCarloOutputSamples run.2) None 2;
      EvFree (monteCarloOutputSamples run.2) ].
Proof.
  cbv zeta.
  destruct (buffer_calls_in_order pow_square 1000000 "lu" 1
              (exampleWorld (exampleArguments 0 true 2 false false false false) 0)
              (exampleArguments 0 true 2 false false false false)
              eq_refl (fun H => eq_refl)) as [Hcalls _].
  exact Hcalls.
Defined.

(** ** Repeated passes and the size of the buffer *)

Section Passes.

Variable pow : float -> float -> float.
Variable CLOCKS_PER_SEC : Z.
Variable PRIu64 : string.
Variable kCommonConstantReturnTypeError : Z.

Implicit Types (w : World) (arguments : CommandLineArguments) (table : list (option float)).

(** X16. The last pass wins: a pass over the table left by an earlier pass
    with the same selection gives the scalar and the table that it gives
    over the original table, whatever the inputs of the earlier pass. *)
Theorem last_pass_wins arguments (Aout Vdd Aout' Vdd' : float) table :
  length table = kOutputDistributionIndexCalibratedSensorOutputMax ->
  calculateSensorOutput pow arguments [Aout'; Vdd']
    (calculateSensorOutput pow arguments [Aout; Vdd] table).2
  = calculateSensorOutput pow arguments [Aout'; Vdd'] table.
Proof.
  intros Hlen.
  destruct (table_of_length_4 table Hlen) as (o0 & o1 & o2 & o3 & ->).
  rewrite (calculateSensorOutput_cases pow arguments Aout Vdd).
  destruct (outputSelect (common arguments)) as [|[|[|[|[|n]]]]] eqn:Hsel;
    cbn [snd]; rewrite !calculateSensorOutput_cases, Hsel; reflexivity.
Qed.

(** X17. When the iteration count times [sizeof(double)] does not fit 64
    bits, the byte count that [main] passes to [checkedMalloc] has wrapped:
    the buffer it obtains has fewer entries than the loop has iterations. *)
Theorem wrapped_allocation_is_too_short w arguments :
  getCommandLineArguments w = Some arguments ->
  checkedMalloc w = true ->
  isMonteCarloMode (common arguments) = true ->
  let n := numberOfMonteCarloIterations (common arguments) in
  (2 ^ 64 <= Z.of_nat n * sizeof_double)%Z ->
  let run := main pow CLOCKS_PER_SEC PRIu64 kCommonConstantReturnTypeError w in
  exists buffer,
    monteCarloOutputSamples run.2 = Some buffer /\
    length buffer = Z.to_nat (size_t_mul (Z.of_nat n) sizeof_double / sizeof_double) /\
    length buffer < n.
Proof.
  intros Hargs Hmalloc Hmc n Hwrap run. subst run.
  destruct (main_keeps_results pow CLOCKS_PER_SEC PRIu64
              kCommonConstantReturnTypeError w arguments Hargs (fun _ => Hmalloc))
    as (Hkeep & _).
  destruct (allocateSamples_fields w arguments (initialLocals w) (fun _ => Hmalloc))
    as (_ & Hsized & _ & Hbuf & _).
  specialize (Hsized (initialLocals_sized w)).
  destruct (beforeReport_fields pow CLOCKS_PER_SEC w arguments _ Hsized)
    as (_ & _ & Hsamples & _).
  cbv zeta in *. rewrite Hkeep, Hsamples. rewrite Hmc in Hbuf.
  assert (Hstart : sized (startTiming w arguments
                            (allocateSamples w arguments (initialLocals w)).1) /\
                   monteCarloOutputSamples
                     (startTiming w arguments
                        (allocateSamples w arguments (initialLocals w)).1)
                   = monteCarloOutputSamples
                       (allocateSamples w arguments (initialLocals w)).1).
  { unfold startTiming.
    destruct (isTimingEnabled (common arguments) || isBenchmarkingMode (common arguments));
      split; auto. }
  destruct Hstart as [Hsized' Hbuf']. rewrite Hbuf in Hbuf'.
  destruct (samplingLoop_samples pow w arguments
              (numberOfMonteCarloIterations (common arguments)) 0 _ _ Hsized' Hmc Hbuf')
    as (buffer & Hloop & Hlen & _).
  rewrite length_replicate in Hlen.
  exists buffer. split; [exact Hloop|]. split; [exact Hlen|].
  rewrite Hlen. fold n. unfold size_t_mul, sizeof_double in *.
  pose proof (Z.mod_pos_bound (Z.of_nat n * 8) (2 ^ 64) ltac:(lia)) as Hmod.
  assert (Hdiv : ((Z.of_nat n * 8) mod 2 ^ 64 / 8 < Z.of_nat n)%Z).
  { apply Z.div_lt_upper_bound; lia. }
  apply Nat2Z.inj_lt. rewrite Z2Nat.id; [exact Hdiv|].
  apply Z.div_pos; lia.
Qed.

End Passes.

Lemma last_pass_wins_witness :
  let arguments := exampleArguments 1 false 1 false false false false in
  calculateSensorOutput pow_square arguments [1.5; 3.5]
    (calculateSensorOutput pow_square arguments [1.25; 3.75] [None; None; Some 9; None]).2
  = calculateSensorOutput pow_square arguments [1.5; 3.5] [None; None; Some 9; None].
Proof.
  cbv zeta.
  exact (last_pass_wins pow_square (exampleArguments 1 false 1 false false false false)
           1.25 3.75 1.5 3.5 [None; None; Some 9; None] eq_refl).
Defined.

Lemma wrappingArguments_count :
  numberOfMonteCarloIterations (common wrappingArguments) = Z.to_nat (2 ^ 61).
Proof. exact (@eq_refl nat (Z.to_nat (2 ^ 61))). Qed.

Lemma wrappingArguments_wrap :
  (2 ^ 64 <= Z.of_nat (numberOfMonteCarloIterations (common wrappingArguments))
             * sizeof_double)%Z.
Proof.
  rewrite wrappingArguments_count, Z2Nat.id; [reflexivity|discriminate].
Qed.

Lemma wrapped_allocation_is_too_short_witness :
  (2 ^ 64 <= Z.of_nat (numberOfMonteCarloIterations (common wrappingArguments))
             * sizeof_double)%Z /\
  exists buffer,
    monteCarloOutputSamples (main pow_square 1000000 "lu" 1
                               (exampleWorld wrappingArguments 0)).2 = Some buffer /\
    length buffer
    = Z.to_nat (size_t_mul (Z.of_nat (numberOfMonteCarloIterations (common wrappingArguments)))
                  sizeof_double / sizeof_double) /\
    length buffer < numberOfMonteCarloIterations (common wrappingArguments).
Proof.
  split; [exact wrappingArguments_wrap|].
  exact (wrapped_allocation_is_too_short pow_square 1000000 "lu" 1
           (exampleWorld wrappingArguments 0) wrappingArguments
           eq_refl eq_refl eq_refl wrappingArguments_wrap).
Defined.
